(** * ITKBoneEnhancement: multi-scale Hessian enhancement, eigen-to-measure
      evaluation and Descoteaux parameter estimation.

    A shallow embedding of
      - [itkMultiScaleHessianEnhancementImageFilter.hxx],
      - [itkEigenToMeasureImageFilter.hxx],
      - [itkDescoteauxEigenToScalarParameterEstimationImageFilter.h] and its
        test driver,
    over the real numbers: [SigmaType], [RealType] and the pixel types are
    taken as [R], so arithmetic is exact.  Images of dimension 3 are a
    region (start index and size) with a pixel accessor. *)

From Stdlib Require Import Reals Lra Lia ZArith List Bool Permutation.
Import ListNotations.

Local Open Scope R_scope.

(** * Part I: definitions *)

(** ** Exceptions *)

(** Every [itkExceptionMacro] / [throw ExceptionObject(...)] site of the
    sources is one constructor; [SigmaMustBeGreaterThanZero] is the failure
    the specification gives the tensor-field stage for a non-positive
    scale, [MaskRegionIsNotContainedInImageRegion] the failure it gives a
    run whose mask region is not contained in the image domain,
    [InputIsRequiredButNotSet] is the pipeline's check of
    [SetNumberOfRequiredInputs], [ArrayIndexOutOfBounds] stands
    for reading an [itk::Array] past its end (the loops of the sources never
    do), and [CollaboratorException] is an exception that leaves one of the
    ITK filters the module drives. *)
Inductive ExceptionObject : Type :=
| EigenToScalarImageFilterIsNotPresent
| SigmaArrayMustHaveAtLeastOneSigmaValue (givenSize : nat)
| NumberOfSigmaValuesRequestedIsLessThanOne
| RequestedSigmaStepMethodDoesNotExist
| TryingToConvertBadOrder (order : Z)
| SigmaMustBeGreaterThanZero (sigma : R)
| MaskRegionIsNotContainedInImageRegion
| InputIsRequiredButNotSet
| ArrayIndexOutOfBounds (index : nat)
| CollaboratorException (code : Z).

Definition Result (A : Type) : Type := (ExceptionObject + A)%type.

Definition OK {A : Type} (a : A) : Result A := inr a.
Definition Throw {A : Type} (e : ExceptionObject) : Result A := inl e.

(** The error taxonomy the specification uses for the two precondition
    failures of the aggregator's [GenerateData]. *)
Definition ConfigurationError (e : ExceptionObject) : bool :=
  match e with
  | EigenToScalarImageFilterIsNotPresent => true
  | SigmaArrayMustHaveAtLeastOneSigmaValue _ => true
  | _ => false
  end.

(** The specification's class of errors for a bad parameter value: a
    non-positive scale, a non-positive step count. *)
Definition InvalidParameter (e : ExceptionObject) : bool :=
  match e with
  | SigmaMustBeGreaterThanZero _ => true
  | NumberOfSigmaValuesRequestedIsLessThanOne => true
  | _ => false
  end.

(** The specification's class of errors for a mask region that is not
    contained in the image domain. *)
Definition DomainError (e : ExceptionObject) : bool :=
  match e with
  | MaskRegionIsNotContainedInImageRegion => true
  | _ => false
  end.

(** ** [itk::Array] of reals *)

Module Array.

Definition Array := list R.

(** [SetSize]: storage for [n] elements; the callers overwrite or [Fill]
    the contents before reading them. *)
Definition SetSize (n : nat) : Array := repeat 0 n.

Definition Fill (v : R) (a : Array) : Array := repeat v (length a).

Fixpoint SetElement (i : nat) (x : R) (a : Array) : Array :=
  match a, i with
  | [], _ => []
  | _ :: t, O => x :: t
  | h :: t, S i' => h :: SetElement i' x t
  end.

Definition GetElement (i : nat) (a : Array) : option R := nth_error a i.

Definition GetSize (a : Array) : nat := length a.

End Array.

(** ** Scale schedule: [GenerateSigmaArray] *)

Module SigmaArray.
Import Array.

(** The last constructor stands for a value outside the enumeration, which
    the [switch] sends to its [default] branch. *)
Inductive SigmaStepMethodEnum : Type :=
| EquispacedSigmaSteps
| LogarithmicSigmaSteps
| OutOfRangeSigmaStepMethod (value : Z).

Definition SigmaType := R.
Definition SigmaStepsType := Z.
Definition SigmaArrayType := Array.

(** The body of the [switch] inside the loop: the sigma value of one scale
    level.  The division is only reached with at least two steps. *)
Definition thisSigma (SigmaMinimum SigmaMaximum : SigmaType)
    (NumberOfSigmaSteps : SigmaStepsType)
    (SigmaStepMethod : SigmaStepMethodEnum) (scaleLevel : nat)
  : Result SigmaType :=
  match SigmaStepMethod with
  | EquispacedSigmaSteps =>
      let stepSize :=
        Rmax 1e-10
             ((SigmaMaximum - SigmaMinimum) / IZR (NumberOfSigmaSteps - 1)) in
      OK (SigmaMinimum + stepSize * INR scaleLevel)
  | LogarithmicSigmaSteps =>
      let stepSize :=
        Rmax 1e-10
             ((ln SigmaMaximum - ln SigmaMinimum)
              / IZR (NumberOfSigmaSteps - 1)) in
      OK (exp (ln SigmaMinimum + stepSize * INR scaleLevel))
  | OutOfRangeSigmaStepMethod _ =>
      Throw RequestedSigmaStepMethodDoesNotExist
  end.

(** [for (scaleLevel = 1; scaleLevel < sigmaArray.GetSize(); ++scaleLevel)]:
    [remaining] counts the iterations still to run. *)
Fixpoint populate (SigmaMinimum SigmaMaximum : SigmaType)
    (NumberOfSigmaSteps : SigmaStepsType)
    (SigmaStepMethod : SigmaStepMethodEnum)
    (remaining scaleLevel : nat) (sigmaArray : SigmaArrayType)
  : Result SigmaArrayType :=
  match remaining with
  | O => OK sigmaArray
  | S remaining' =>
      match thisSigma SigmaMinimum SigmaMaximum NumberOfSigmaSteps
                      SigmaStepMethod scaleLevel with
      | inl e => Throw e
      | inr s =>
          populate SigmaMinimum SigmaMaximum NumberOfSigmaSteps
                   SigmaStepMethod remaining' (S scaleLevel)
                   (SetElement scaleLevel s sigmaArray)
      end
  end.

Definition GenerateSigmaArray (SigmaMinimum SigmaMaximum : SigmaType)
    (NumberOfSigmaSteps : SigmaStepsType)
    (SigmaStepMethod : SigmaStepMethodEnum) : Result SigmaArrayType :=
  (* Quick check to make sure value is correct *)
  if (NumberOfSigmaSteps <? 1)%Z
  then Throw NumberOfSigmaValuesRequestedIsLessThanOne
  else
    (* If we have min greater than max just swap *)
    let swapped := Rgt_dec SigmaMinimum SigmaMaximum in
    let SigmaMinimum' := if swapped then SigmaMaximum else SigmaMinimum in
    let SigmaMaximum' := if swapped then SigmaMinimum else SigmaMaximum in
    (* If min equals max, just generate one step size *)
    let NumberOfSigmaSteps' :=
      if Req_dec_T SigmaMinimum' SigmaMaximum' then 1%Z
      else NumberOfSigmaSteps in
    (* Create array and resize *)
    let sigmaArray := SetSize (Z.to_nat NumberOfSigmaSteps') in
    (* Populate first element to avoid division by zero *)
    let sigmaArray := SetElement 0 SigmaMinimum' sigmaArray in
    (* Populate the remaining array *)
    populate SigmaMinimum' SigmaMaximum' NumberOfSigmaSteps' SigmaStepMethod
             (GetSize sigmaArray - 1) 1 sigmaArray.

Definition GenerateEquispacedSigmaArray
    (SigmaMinimum SigmaMaximum : SigmaType)
    (NumberOfSigmaSteps : SigmaStepsType) : Result SigmaArrayType :=
  GenerateSigmaArray SigmaMinimum SigmaMaximum NumberOfSigmaSteps
                     EquispacedSigmaSteps.

Definition GenerateLogarithmicSigmaArray
    (SigmaMinimum SigmaMaximum : SigmaType)
    (NumberOfSigmaSteps : SigmaStepsType) : Result SigmaArrayType :=
  GenerateSigmaArray SigmaMinimum SigmaMaximum NumberOfSigmaSteps
                     LogarithmicSigmaSteps.

(** The value the loop stores at [scaleLevel] for the two step methods. *)
Definition levelValue (lo hi : R) (n : Z) (m : SigmaStepMethodEnum)
    (scaleLevel : nat) : R :=
  match m with
  | LogarithmicSigmaSteps =>
      exp (ln lo + Rmax 1e-10 ((ln hi - ln lo) / IZR (n - 1)) * INR scaleLevel)
  | _ =>
      lo + Rmax 1e-10 ((hi - lo) / IZR (n - 1)) * INR scaleLevel
  end.

Definition knownMethod (m : SigmaStepMethodEnum) : Prop :=
  m = EquispacedSigmaSteps \/ m = LogarithmicSigmaSteps.

End SigmaArray.

(** ** Images *)

Module Image.

(** [ImageDimension] is 3 throughout this module family
    ([InputHaveDimension3Check]). *)
Definition ImageDimension : nat := 3.

Definition IndexType := (Z * Z * Z)%type.
Definition SizeType := (nat * nat * nat)%type.
Definition PointType := (R * R * R)%type.

(** [itk::ImageRegion]: a start index and a size. *)
Record ImageRegion : Type := {
  GetIndex : IndexType;
  GetSize : SizeType
}.

Definition within (start : Z) (size : nat) (x : Z) : bool :=
  ((start <=? x) && (x <? start + Z.of_nat size))%Z.

Definition IsInside (r : ImageRegion) (idx : IndexType) : bool :=
  let '(x, y, z) := idx in
  let '(x0, y0, z0) := GetIndex r in
  let '(sx, sy, sz) := GetSize r in
  within x0 sx x && within y0 sy y && within z0 sz z.

Definition span (start : Z) (size : nat) : list Z :=
  map (fun k => (start + Z.of_nat k)%Z) (seq 0 size).

(** The indices an [ImageRegionIterator] visits, first coordinate
    fastest. *)
Definition Walk (r : ImageRegion) : list IndexType :=
  let '(x0, y0, z0) := GetIndex r in
  let '(sx, sy, sz) := GetSize r in
  flat_map (fun z =>
    flat_map (fun y =>
      map (fun x => (x, y, z)) (span x0 sx)) (span y0 sy)) (span z0 sz).

Definition Index_eqb (i j : IndexType) : bool :=
  let '(x, y, z) := i in
  let '(x', y', z') := j in
  ((x =? x') && (y =? y') && (z =? z'))%Z.

(** An image: the region its buffer covers, the pixel stored at an index,
    and the index-to-physical-point transform of its geometry. *)
Record Image (A : Type) : Type := {
  GetBufferedRegion : ImageRegion;
  GetPixel : IndexType -> A;
  TransformIndexToPhysicalPoint : IndexType -> PointType
}.
Arguments GetBufferedRegion {A} _.
Arguments GetPixel {A} _ _.
Arguments TransformIndexToPhysicalPoint {A} _ _.

(** The geometry of a freshly created image: origin 0, unit spacing,
    identity direction. *)
Definition unitGeometry (idx : IndexType) : PointType :=
  let '(x, y, z) := idx in (IZR x, IZR y, IZR z).

(** [Image::New], [SetRegions], [Allocate], [FillBuffer]. *)
Definition FillBuffer {A : Type} (region : ImageRegion) (v : A) : Image A :=
  {| GetBufferedRegion := region;
     GetPixel := fun _ => v;
     TransformIndexToPhysicalPoint := unitGeometry |}.

(** [it.Set(v)] with the iterator standing at [idx]. *)
Definition SetPixel {A : Type} (img : Image A) (idx : IndexType) (v : A)
  : Image A :=
  {| GetBufferedRegion := GetBufferedRegion img;
     GetPixel := fun j => if Index_eqb idx j then v else GetPixel img j;
     TransformIndexToPhysicalPoint := TransformIndexToPhysicalPoint img |}.

(** [it.GoToBegin(); while (!it.IsAtEnd()) { it.Set(v); ++it; }] over a
    region. *)
Definition SetRegion {A : Type} (region : ImageRegion) (v : A)
    (img : Image A) : Image A :=
  fold_left (fun img idx => SetPixel img idx v) (Walk region) img.

(** The work units a multi-threader hands out for a region. *)
Definition Splitter := ImageRegion -> list ImageRegion.

(** A splitter is sound when its pieces cover exactly the region. *)
Definition covers (split : Splitter) : Prop :=
  forall r idx,
    IsInside r idx = true
    <-> exists piece, In piece (split r) /\ IsInside piece idx = true.

(** The splitter of a single-threaded run. *)
Definition SingleThread : Splitter := fun r => [r].

End Image.

(** ** Eigenvalue-to-measure evaluation: [EigenToMeasureImageFilter] *)

Module EigenToMeasure.
Import Image.

Definition InputImagePixelType := (R * R * R)%type.
Definition OutputImagePixelType := R.
Definition InputImageType := Image InputImagePixelType.
Definition OutputImageType := Image OutputImagePixelType.

(** [itk::SpatialObject] as far as this filter uses it. *)
Record MaskSpatialObjectType : Type := {
  IsInsideInObjectSpace : PointType -> bool
}.

(** The virtual interface every formula variant implements. *)
Class EigenToMeasureImageFilter (Self : Type) : Type := {
  BeforeThreadedGenerateData : Self -> Self;
  ProcessPixel : Self -> InputImagePixelType -> OutputImagePixelType;
  AfterThreadedGenerateData : Self -> Self
}.

(** State of one region walk: the output image and the indices at which
    [ProcessPixel] has been called so far (most recent first). *)
Record Walker : Type := {
  outputPtr : OutputImageType;
  evaluated : list IndexType
}.

(** [(!maskPointer) || (maskPointer->IsInsideInObjectSpace(point))] *)
Definition passesMask (maskPointer : option MaskSpatialObjectType)
    (point : PointType) : bool :=
  match maskPointer with
  | None => true
  | Some mask => IsInsideInObjectSpace mask point
  end.

Section GenerateData.
Context {Self : Type} `{EigenToMeasureImageFilter Self}.

(** One turn of the [while (!inputIt.IsAtEnd())] loop, both iterators
    standing at [idx]. *)
Definition visit (this : Self) (inputPtr : InputImageType)
    (maskPointer : option MaskSpatialObjectType)
    (w : Walker) (idx : IndexType) : Walker :=
  let point := TransformIndexToPhysicalPoint inputPtr idx in
  if passesMask maskPointer point
  then {| outputPtr :=
            SetPixel (outputPtr w) idx
                     (ProcessPixel this (GetPixel inputPtr idx));
          evaluated := idx :: evaluated w |}
  else {| outputPtr := SetPixel (outputPtr w) idx 0;
          evaluated := evaluated w |}.

(** The value one turn of the loop writes at [idx]. *)
Definition written (this : Self) (inputPtr : InputImageType)
    (maskPointer : option MaskSpatialObjectType) (idx : IndexType)
  : OutputImagePixelType :=
  if passesMask maskPointer (TransformIndexToPhysicalPoint inputPtr idx)
  then ProcessPixel this (GetPixel inputPtr idx)
  else 0.

(** The lambda handed to [ParallelizeImageRegion]. *)
Definition processRegion (this : Self) (inputPtr : InputImageType)
    (maskPointer : option MaskSpatialObjectType)
    (w : Walker) (region : ImageRegion) : Walker :=
  fold_left (visit this inputPtr maskPointer) (Walk region) w.

(** [ParallelizeImageRegion]: the pieces of the requested region are
    processed one after the other. *)
Definition ParallelizeImageRegion (split : Splitter)
    (requestedRegion : ImageRegion)
    (body : Walker -> ImageRegion -> Walker) (w : Walker) : Walker :=
  fold_left body (split requestedRegion) w.

(** [GenerateData]; [allocated] is the output image as [AllocateOutputs]
    leaves it.  Returns the filter after the two hooks, and the final
    state of the walk. *)
Definition GenerateData (split : Splitter) (this : Self)
    (inputPtr : InputImageType)
    (maskPointer : option MaskSpatialObjectType)
    (allocated : OutputImageType) : Self * Walker :=
  let this := BeforeThreadedGenerateData this in
  (* AllocateOutputs buffers exactly the requested region *)
  let requestedRegion := GetBufferedRegion allocated in
  let w :=
    ParallelizeImageRegion split requestedRegion
      (processRegion this inputPtr maskPointer)
      {| outputPtr := allocated; evaluated := [] |} in
  (AfterThreadedGenerateData this, w).

End GenerateData.

(** A formula variant used to exercise the filter: the sum of the three
    eigenvalues, without parameters. *)
#[export] Instance TraceMeasure : EigenToMeasureImageFilter unit := {
  BeforeThreadedGenerateData := fun this => this;
  ProcessPixel := fun _ '(l1, l2, l3) => l1 + l2 + l3;
  AfterThreadedGenerateData := fun this => this
}.

(** A small fixture: two voxels along the first axis in unit geometry,
    and a mask that keeps the half space [x <= 0]. *)
Definition twoVoxels : ImageRegion :=
  {| GetIndex := (0, 0, 0)%Z; GetSize := (2, 1, 1)%nat |}.

Definition sampleInput : InputImageType :=
  {| GetBufferedRegion := twoVoxels;
     GetPixel := fun '(x, _, _) => (IZR x, 2, 3);
     TransformIndexToPhysicalPoint := unitGeometry |}.

Definition sampleAllocated : OutputImageType :=
  {| GetBufferedRegion := twoVoxels;
     GetPixel := fun _ => 7;
     TransformIndexToPhysicalPoint := unitGeometry |}.

Definition halfSpaceMask : MaskSpatialObjectType :=
  {| IsInsideInObjectSpace :=
       fun '(x, _, _) => if Rle_dec x 0 then true else false |}.

End EigenToMeasure.

(** ** Descoteaux parameter estimation

    The header of the estimator is translated as it stands.  Its
    implementation file is not part of the sources at hand: the constructor
    and the four [GenerateData] phases are modelled from the specification
    (section 4.3, the accumulator model of section 5, the domain check of
    sections 6 and 7) and the class documentation. *)

Module Descoteaux.
Import Array Image.

Definition RealType := R.
Definition InputPixelType := (R * R * R)%type.
Definition MaskPixelType := Z.
Definition InputImageType := Image InputPixelType.
Definition MaskImageType := Image MaskPixelType.

(** [SimpleDataObjectDecorator< RealType >] *)
Record RealTypeDecoratedType : Type := { Get : RealType }.

Record DescoteauxEigenToScalarParameterEstimationImageFilter : Type := {
  m_FrobeniusNormWeight : RealType;
  m_BackgroundValue : MaskPixelType;
  m_MaxFrobeniusNorm : Array;
  GetInput : option InputImageType;
  GetMaskImage : option MaskImageType;
  GetAlphaOutput : RealTypeDecoratedType;
  GetBetaOutput : RealTypeDecoratedType;
  GetCOutput : RealTypeDecoratedType
}.

Definition Self : Type :=
  DescoteauxEigenToScalarParameterEstimationImageFilter.

(** Standard getters for the output parameters. *)
Definition GetAlpha (this : Self) : RealType := Get (GetAlphaOutput this).
Definition GetBeta (this : Self) : RealType := Get (GetBetaOutput this).
Definition GetC (this : Self) : RealType := Get (GetCOutput this).

(** [itkSetInputMacro], [itkSetMacro]. *)
Definition SetInput (image : InputImageType) (this : Self) : Self :=
  {| m_FrobeniusNormWeight := m_FrobeniusNormWeight this;
     m_BackgroundValue := m_BackgroundValue this;
     m_MaxFrobeniusNorm := m_MaxFrobeniusNorm this;
     GetInput := Some image;
     GetMaskImage := GetMaskImage this;
     GetAlphaOutput := GetAlphaOutput this;
     GetBetaOutput := GetBetaOutput this;
     GetCOutput := GetCOutput this |}.

Definition SetMaskImage (mask : MaskImageType) (this : Self) : Self :=
  {| m_FrobeniusNormWeight := m_FrobeniusNormWeight this;
     m_BackgroundValue := m_BackgroundValue this;
     m_MaxFrobeniusNorm := m_MaxFrobeniusNorm this;
     GetInput := GetInput this;
     GetMaskImage := Some mask;
     GetAlphaOutput := GetAlphaOutput this;
     GetBetaOutput := GetBetaOutput this;
     GetCOutput := GetCOutput this |}.

Definition SetBackgroundValue (value : MaskPixelType) (this : Self) : Self :=
  {| m_FrobeniusNormWeight := m_FrobeniusNormWeight this;
     m_BackgroundValue := value;
     m_MaxFrobeniusNorm := m_MaxFrobeniusNorm this;
     GetInput := GetInput this;
     GetMaskImage := GetMaskImage this;
     GetAlphaOutput := GetAlphaOutput this;
     GetBetaOutput := GetBetaOutput this;
     GetCOutput := GetCOutput this |}.

Definition SetFrobeniusNormWeight (weight : RealType) (this : Self) : Self :=
  {| m_FrobeniusNormWeight := weight;
     m_BackgroundValue := m_BackgroundValue this;
     m_MaxFrobeniusNorm := m_MaxFrobeniusNorm this;
     GetInput := GetInput this;
     GetMaskImage := GetMaskImage this;
     GetAlphaOutput := GetAlphaOutput this;
     GetBetaOutput := GetBetaOutput this;
     GetCOutput := GetCOutput this |}.

Definition SetMaxFrobeniusNorm (a : Array) (this : Self) : Self :=
  {| m_FrobeniusNormWeight := m_FrobeniusNormWeight this;
     m_BackgroundValue := m_BackgroundValue this;
     m_MaxFrobeniusNorm := a;
     GetInput := GetInput this;
     GetMaskImage := GetMaskImage this;
     GetAlphaOutput := GetAlphaOutput this;
     GetBetaOutput := GetBetaOutput this;
     GetCOutput := GetCOutput this |}.

Definition SetOutputs (alpha beta c : RealType) (this : Self) : Self :=
  {| m_FrobeniusNormWeight := m_FrobeniusNormWeight this;
     m_BackgroundValue := m_BackgroundValue this;
     m_MaxFrobeniusNorm := m_MaxFrobeniusNorm this;
     GetInput := GetInput this;
     GetMaskImage := GetMaskImage this;
     GetAlphaOutput := {| Get := alpha |};
     GetBetaOutput := {| Get := beta |};
     GetCOutput := {| Get := c |} |}.

(** Modelled from the spec: the constructor (the implementation file of
    the estimator is missing).  The Frobenius norm weight defaults to 0.5
    and the three decorated outputs hold the documented default 0.5 until
    a run overwrites them.  The default background label is not fixed by
    the specification and stays an argument. *)
Definition New (defaultBackground : MaskPixelType) : Self :=
  {| m_FrobeniusNormWeight := 0.5;
     m_BackgroundValue := defaultBackground;
     m_MaxFrobeniusNorm := SetSize 1;
     GetInput := None;
     GetMaskImage := None;
     GetAlphaOutput := {| Get := 0.5 |};
     GetBetaOutput := {| Get := 0.5 |};
     GetCOutput := {| Get := 0.5 |} |}.

(** Modelled from the spec: [CalculateFrobeniusNorm] (declared in the
    header, body missing): the square root of the sum of squares of the
    eigenvalues. *)
Definition CalculateFrobeniusNorm (pixel : InputPixelType) : RealType :=
  let '(l1, l2, l3) := pixel in sqrt (l1 * l1 + l2 * l2 + l3 * l3).

(** Modelled from the spec: the foreground test (body of the threaded
    scan missing).  Without a mask every voxel is foreground; with a mask,
    the voxels the mask covers whose label differs from the background
    value. *)
Definition IsForeground (this : Self) (idx : IndexType) : bool :=
  match GetMaskImage this with
  | None => true
  | Some mask =>
      IsInside (GetBufferedRegion mask) idx
      && negb (GetPixel mask idx =? m_BackgroundValue this)%Z
  end.

(** Modelled from the spec: [BeforeThreadedGenerateData] (body missing):
    one accumulator per worker, each starting at 0. *)
Definition BeforeThreadedGenerateData (numberOfThreads : nat) (this : Self)
  : Self :=
  SetMaxFrobeniusNorm (Fill 0 (SetSize numberOfThreads)) this.

(** Modelled from the spec: the scan of one worker (body of the threaded
    scan missing): a running maximum, starting at 0, of the Frobenius norm
    over the foreground voxels of its region. *)
Definition scanRegion (this : Self) (input : InputImageType)
    (region : ImageRegion) : RealType :=
  fold_left
    (fun max idx =>
       if IsForeground this idx
       then Rmax max (CalculateFrobeniusNorm (GetPixel input idx))
       else max)
    (Walk region) 0.

(** Modelled from the spec: [ThreadedGenerateData] (body missing): the
    worker scans its region and leaves its maximum in its own slot. *)
Definition ThreadedGenerateData (input : InputImageType)
    (outputRegionForThread : ImageRegion) (threadId : nat) (this : Self)
  : Self :=
  SetMaxFrobeniusNorm
    (SetElement threadId (scanRegion this input outputRegionForThread)
                (m_MaxFrobeniusNorm this))
    this.

(** Modelled from the spec: [AfterThreadedGenerateData] (body missing):
    the accumulators are merged by [max]; alpha and beta are the fixed
    0.5, c is the weight times the merged maximum. *)
Definition AfterThreadedGenerateData (this : Self) : Self :=
  let maxFrobeniusNorm := fold_left Rmax (m_MaxFrobeniusNorm this) 0 in
  SetOutputs 0.5 0.5 (m_FrobeniusNormWeight this * maxFrobeniusNorm) this.

(** Modelled from the spec: the threaded phase (driven by the missing
    implementation file): piece number [k] of the split goes to worker
    [k]. *)
Fixpoint runThreads (input : InputImageType) (pieces : list ImageRegion)
    (threadId : nat) (this : Self) : Self :=
  match pieces with
  | [] => this
  | piece :: pieces' =>
      runThreads input pieces' (S threadId)
                 (ThreadedGenerateData input piece threadId this)
  end.

(** Modelled from the spec: the domain requirement on a mask (sections 3
    and 6; in the class documentation: the mask region must be contained in
    the image region): every index of the mask's region is an index of the
    image's region.  The two regions may be equal, as they are for the first
    mask of the test driver. *)
Definition MaskRegionIsContained (mask : MaskImageType)
    (input : InputImageType) : bool :=
  forallb (IsInside (GetBufferedRegion input))
          (Walk (GetBufferedRegion mask)).

(** Modelled from the spec: the precondition check of a run (section 7:
    a mask region not contained in the image domain is a DomainError,
    detected before any computation proceeds).  Without a mask there is
    nothing to check. *)
Definition VerifyPreconditions (this : Self) (input : InputImageType)
  : Result unit :=
  match GetMaskImage this with
  | None => OK tt
  | Some mask =>
      if MaskRegionIsContained mask input
      then OK tt
      else Throw MaskRegionIsNotContainedInImageRegion
  end.

(** Modelled from the spec: one run of the estimator ([Update]) over the
    region of its input: the precondition check, then the three phases.
    A failed check leaves the filter as it was. *)
Definition Update (split : Splitter) (this : Self) : Result Self :=
  match GetInput this with
  | None => Throw InputIsRequiredButNotSet
  | Some input =>
      match VerifyPreconditions this input with
      | inl e => Throw e
      | inr _ =>
          let pieces := split (GetBufferedRegion input) in
          let this := BeforeThreadedGenerateData (length pieces) this in
          let this := runThreads input pieces 0 this in
          OK (AfterThreadedGenerateData this)
      end
  end.

(** A voxel takes part in the estimation when it lies in the input's
    region and is foreground. *)
Definition Participates (this : Self) (input : InputImageType)
    (idx : IndexType) : Prop :=
  IsInside (GetBufferedRegion input) idx = true
  /\ IsForeground this idx = true.

(** [m] is the maximum Frobenius norm over the participating voxels, with
    the convention that the maximum over no voxel is 0. *)
Definition IsMaximumFrobeniusNorm (this : Self) (input : InputImageType)
    (m : RealType) : Prop :=
  (forall idx, Participates this input idx ->
               CalculateFrobeniusNorm (GetPixel input idx) <= m)
  /\ ((exists idx, Participates this input idx
                   /\ CalculateFrobeniusNorm (GetPixel input idx) = m)
      \/ (m = 0 /\ forall idx, ~ Participates this input idx)).

(** The configuration calls a client can make between construction and
    a run. *)
Inductive Setter : Type :=
| CallSetInput (image : InputImageType)
| CallSetMaskImage (mask : MaskImageType)
| CallSetBackgroundValue (value : MaskPixelType)
| CallSetFrobeniusNormWeight (weight : RealType).

Definition call (this : Self) (s : Setter) : Self :=
  match s with
  | CallSetInput image => SetInput image this
  | CallSetMaskImage mask => SetMaskImage mask this
  | CallSetBackgroundValue value => SetBackgroundValue value this
  | CallSetFrobeniusNormWeight weight => SetFrobeniusNormWeight weight this
  end.

Definition configure (calls : list Setter) (this : Self) : Self :=
  fold_left call calls this.

End Descoteaux.

(** ** The test driver of the estimator

    [itkDescoteauxEigenToScalarParameterEstimationImageFilterTest], run
    against the model above. *)

Module DescoteauxTest.
Import Image Descoteaux.

Definition EXIT_SUCCESS : Z := 0.
Definition EXIT_FAILURE : Z := 1.

(** [itk::Math::FloatAlmostEqual]: true when the two values differ by at
    most [maxAbsoluteDifference]; the alternative acceptance by distance in
    units in the last place has no counterpart over the reals. *)
Definition FloatAlmostEqual (x1 x2 : R) (maxUlps : Z)
    (maxAbsoluteDifference : R) : bool :=
  if Rle_dec (Rabs (x1 - x2)) maxAbsoluteDifference then true else false.

Notation "'ITK_TEST_EXPECT_TRUE' c ;; k" :=
  (if c then k else EXIT_FAILURE)
    (at level 10, c at level 99, k at level 200, only parsing).

Notation "'ITK_TRY_EXPECT_NO_EXCEPTION' x <- e ;; k" :=
  (match e with inr x => k | inl _ => EXIT_FAILURE end)
    (at level 10, x name, e at level 99, k at level 200, only parsing).

Definition simpleEigenPixel : InputPixelType := (-1, -1, -1).
Definition newEigenPixel : InputPixelType := (3, 3, 3).

Definition region : ImageRegion :=
  {| GetIndex := (0, 0, 0)%Z; GetSize := (10, 10, 10)%nat |}.

Definition maskRegion : ImageRegion :=
  {| GetIndex := (2, 2, 2)%Z; GetSize := (8, 8, 8)%nat |}.

Definition backgroundValue : MaskPixelType := 1%Z.
Definition foregroundValue : MaskPixelType := 2%Z.

Definition image : InputImageType := FillBuffer region simpleEigenPixel.

Definition image2 : InputImageType :=
  SetRegion maskRegion newEigenPixel (FillBuffer region simpleEigenPixel).

Definition mask : MaskImageType :=
  SetRegion maskRegion foregroundValue (FillBuffer region backgroundValue).

Definition mask2 : MaskImageType := FillBuffer maskRegion foregroundValue.

Definition itkDescoteauxEigenToScalarParameterEstimationImageFilterTest
    (split : Splitter) (defaultBackground : MaskPixelType) : Z :=
  let est := New defaultBackground in
  (* Test defaults *)
  ITK_TEST_EXPECT_TRUE FloatAlmostEqual (GetAlpha est) 0.5 6 0.000001 ;;
  ITK_TEST_EXPECT_TRUE FloatAlmostEqual (GetBeta est) 0.5 6 0.000001 ;;
  ITK_TEST_EXPECT_TRUE FloatAlmostEqual (GetC est) 0.5 6 0.000001 ;;
  ITK_TEST_EXPECT_TRUE
    FloatAlmostEqual (Get (GetAlphaOutput est)) 0.5 6 0.000001 ;;
  ITK_TEST_EXPECT_TRUE
    FloatAlmostEqual (Get (GetBetaOutput est)) 0.5 6 0.000001 ;;
  ITK_TEST_EXPECT_TRUE
    FloatAlmostEqual (Get (GetCOutput est)) 0.5 6 0.000001 ;;
  (* Test an empty pixel value *)
  let est := SetInput image est in
  ITK_TRY_EXPECT_NO_EXCEPTION est <- Update split est ;;
  ITK_TEST_EXPECT_TRUE FloatAlmostEqual (GetAlpha est) 0.5 6 0.000001 ;;
  ITK_TEST_EXPECT_TRUE FloatAlmostEqual (GetBeta est) 0.5 6 0.000001 ;;
  ITK_TEST_EXPECT_TRUE
    FloatAlmostEqual (GetC est) (sqrt 3 * 1 * 0.5) 6 0.000001 ;;
  (* Test an empty pixel value *)
  let est := SetFrobeniusNormWeight 0.25 est in
  ITK_TRY_EXPECT_NO_EXCEPTION est <- Update split est ;;
  ITK_TEST_EXPECT_TRUE FloatAlmostEqual (GetAlpha est) 0.5 6 0.000001 ;;
  ITK_TEST_EXPECT_TRUE FloatAlmostEqual (GetBeta est) 0.5 6 0.000001 ;;
  ITK_TEST_EXPECT_TRUE
    FloatAlmostEqual (GetC est) (sqrt 3 * 1 * 0.25) 6 0.000001 ;;
  (* Test with a mask *)
  let est := SetInput image2 est in
  let est := SetMaskImage mask est in
  let est := SetBackgroundValue foregroundValue est in
  let est := SetFrobeniusNormWeight 0.5 est in
  ITK_TRY_EXPECT_NO_EXCEPTION est <- Update split est ;;
  ITK_TEST_EXPECT_TRUE FloatAlmostEqual (GetAlpha est) 0.5 6 0.000001 ;;
  ITK_TEST_EXPECT_TRUE FloatAlmostEqual (GetBeta est) 0.5 6 0.000001 ;;
  ITK_TEST_EXPECT_TRUE
    FloatAlmostEqual (GetC est) (sqrt 3 * 1 * 0.5) 6 0.000001 ;;
  let est := SetInput image2 est in
  let est := SetMaskImage mask est in
  let est := SetBackgroundValue backgroundValue est in
  ITK_TRY_EXPECT_NO_EXCEPTION est <- Update split est ;;
  ITK_TEST_EXPECT_TRUE FloatAlmostEqual (GetAlpha est) 0.5 6 0.000001 ;;
  ITK_TEST_EXPECT_TRUE FloatAlmostEqual (GetBeta est) 0.5 6 0.000001 ;;
  ITK_TEST_EXPECT_TRUE
    FloatAlmostEqual (GetC est) (sqrt 3 * 3 * 0.5) 6 0.000001 ;;
  let est := SetInput image est in
  let est := SetMaskImage mask2 est in
  let est := SetBackgroundValue backgroundValue est in
  ITK_TRY_EXPECT_NO_EXCEPTION est <- Update split est ;;
  ITK_TEST_EXPECT_TRUE FloatAlmostEqual (GetAlpha est) 0.5 6 0.000001 ;;
  ITK_TEST_EXPECT_TRUE FloatAlmostEqual (GetBeta est) 0.5 6 0.000001 ;;
  ITK_TEST_EXPECT_TRUE
    FloatAlmostEqual (GetC est) (sqrt 3 * 1 * 0.5) 6 0.000001 ;;
  EXIT_SUCCESS.

End DescoteauxTest.

(** ** The multi-scale aggregator: [MultiScaleHessianEnhancementImageFilter] *)

Module MultiScale.
Import Array Image.

Definition OutputImageType := Image R.

Module EigenToScalarImageFilterType.
(** [EigenValueOrderType] of the functor filter; the last constructor
    stands for a value outside the enumeration. *)
Inductive EigenValueOrderType : Type :=
| OrderByValue
| OrderByMagnitude
| DoNotOrder
| OutOfRange (value : Z).
End EigenToScalarImageFilterType.

Module EigenAnalysisFilterType.
Inductive EigenValueOrderType : Type :=
| OrderByValue
| OrderByMagnitude
| DoNotOrder.
End EigenAnalysisFilterType.

Definition ExternalEigenValueOrderType :=
  EigenToScalarImageFilterType.EigenValueOrderType.
Definition InternalEigenValueOrderType :=
  EigenAnalysisFilterType.EigenValueOrderType.

(** The numerical work of the Hessian and eigen-analysis filters the
    aggregator drives ([HessianFilterType], [EigenAnalysisFilterType]), as
    far as it depends on it. *)
Class Collaborators : Type := {
  InputImageType : Type;
  HessianImageType : Type;
  EigenImageType : Type;
  (** The Gaussian-smoothed second derivatives of the input image at a
      scale, normalised across scales when the flag is set. *)
  SecondDerivatives : bool -> R -> InputImageType -> HessianImageType;
  (** The eigen-analysis filter, from [Dimension], the eigenvalue order
      and the tensor image; it computes its output or throws. *)
  EigenAnalysisFilter_GenerateData :
    nat -> InternalEigenValueOrderType -> HessianImageType
    -> Result EigenImageType
}.

(** Modelled from the spec: the execution of the Hessian filter, the
    tensor-field stage of section 4.1 (the filter behind
    [HessianFilterType] is not among the sources): a non-positive sigma
    fails with an InvalidParameter error, a positive sigma yields the
    tensor field.  The input image is an argument that is read only. *)
Definition HessianFilter_GenerateData {collaborators : Collaborators}
    (NormalizeAcrossScale : bool) (Sigma : R) (input : InputImageType)
  : Result HessianImageType :=
  if Rle_dec Sigma 0
  then Throw (SigmaMustBeGreaterThanZero Sigma)
  else OK (SecondDerivatives NormalizeAcrossScale Sigma input).

(** Modelled from the spec: the functor of
    [MaximumAbsoluteValueImageFilter] (its header is not among the
    sources): of two values the one with the larger absolute value, the
    first one on a tie. *)
Definition MaximumAbsoluteValue (A B : R) : R :=
  if Rge_dec (Rabs A) (Rabs B) then A else B.

(** Modelled from the spec: the execution of
    [MaximumAbsoluteValueImageFilter] (not among the sources): the functor
    is applied voxel by voxel; the output takes region and geometry from
    the first input. *)
Definition MaximumAbsoluteValueFilter_GenerateData
    (input1 input2 : OutputImageType) : OutputImageType :=
  {| GetBufferedRegion := GetBufferedRegion input1;
     GetPixel := fun idx =>
       MaximumAbsoluteValue (GetPixel input1 idx) (GetPixel input2 idx);
     TransformIndexToPhysicalPoint := TransformIndexToPhysicalPoint input1 |}.

(** The two output data objects whose addresses [GenerateData] holds in
    [TOutputImage::Pointer] variables.  A filter owns its output object:
    [GetOutput()] returns the address of that one object, and every
    [Update()] that executes the filter refills it. *)
Inductive OutputImagePointer : Type :=
| EigenToScalarOutput
| MaximumAbsoluteValueOutput.

Definition OutputImagePointer_eqb (p q : OutputImagePointer) : bool :=
  match p, q with
  | EigenToScalarOutput, EigenToScalarOutput => true
  | MaximumAbsoluteValueOutput, MaximumAbsoluteValueOutput => true
  | _, _ => false
  end.

(** Filter executions, recorded as they complete. *)
Inductive Execution : Type :=
| RanHessianFilter (sigma : R)
| RanEigenAnalysisFilter
| RanEigenToScalarImageFilter
| RanMaximumAbsoluteValueFilter.

Definition isMaximumAbsoluteValue (e : Execution) : bool :=
  match e with RanMaximumAbsoluteValueFilter => true | _ => false end.

Section Aggregator.
Context {collaborators : Collaborators}.

(** The functor filter the user provides: its declared eigenvalue order
    and what its execution computes from the eigenvalue image.  What the
    aggregator changes on this filter during a run (its input connection,
    its release-data flag, the contents of its output object) is not part
    of this record: the output object is the cell [EigenToScalarOutput] of
    the aggregator's store [deref]; the connection and the flag are not
    represented. *)
Record EigenToScalarImageFilterType : Type := {
  GetEigenValueOrder : ExternalEigenValueOrderType;
  EigenToScalar_GenerateData : EigenImageType -> Result OutputImageType
}.

Record HessianFilterType : Type := {
  GetNormalizeAcrossScale : bool;
  GetSigma : R
}.

Record EigenAnalysisFilterType : Type := {
  GetDimension : nat;
  GetOrderEigenValuesBy : InternalEigenValueOrderType
}.

Record MaximumAbsoluteValueFilterType : Type := {
  GetInput1 : option OutputImagePointer;
  GetInput2 : option OutputImagePointer
}.

(** The aggregator with its mini-pipeline.  [deref] is the contents of
    the two output data objects, [GetOutput] the image grafted to the
    aggregator's own output, [executed] the executions so far (latest
    first). *)
Record Self : Type := {
  m_SigmaArray : Array;
  m_HessianFilter : HessianFilterType;
  m_EigenAnalysisFilter : EigenAnalysisFilterType;
  m_MaximumAbsoluteValueFilter : MaximumAbsoluteValueFilterType;
  m_EigenToScalarImageFilter : option EigenToScalarImageFilterType;
  GetInput : InputImageType;
  deref : OutputImagePointer -> option OutputImageType;
  GetOutput : option OutputImageType;
  executed : list Execution
}.

(** The aggregator as [GenerateData] can meet it first: constructed (an
    empty sigma array, fresh internal filters, no functor filter) and
    given its input image.  The constructor of the source takes no
    argument and requires one input; the pipeline refuses to enter
    [GenerateData] without it, so an aggregator without input is not
    represented.  The settings of the internal filters given here are
    placeholders, [GenerateData] overwrites them before the first use. *)
Definition New (input : InputImageType) : Self :=
  {| m_SigmaArray := SetSize 0;
     m_HessianFilter := {| GetNormalizeAcrossScale := false; GetSigma := 1 |};
     m_EigenAnalysisFilter :=
       {| GetDimension := ImageDimension;
          GetOrderEigenValuesBy := EigenAnalysisFilterType.OrderByValue |};
     m_MaximumAbsoluteValueFilter :=
       {| GetInput1 := None; GetInput2 := None |};
     m_EigenToScalarImageFilter := None;
     GetInput := input;
     deref := fun _ => None;
     GetOutput := None;
     executed := [] |}.

Definition SetSigmaArray (a : Array) (this : Self) : Self :=
  {| m_SigmaArray := a;
     m_HessianFilter := m_HessianFilter this;
     m_EigenAnalysisFilter := m_EigenAnalysisFilter this;
     m_MaximumAbsoluteValueFilter := m_MaximumAbsoluteValueFilter this;
     m_EigenToScalarImageFilter := m_EigenToScalarImageFilter this;
     GetInput := GetInput this;
     deref := deref this;
     GetOutput := GetOutput this;
     executed := executed this |}.

Definition SetEigenToScalarImageFilter (f : EigenToScalarImageFilterType)
    (this : Self) : Self :=
  {| m_SigmaArray := m_SigmaArray this;
     m_HessianFilter := m_HessianFilter this;
     m_EigenAnalysisFilter := m_EigenAnalysisFilter this;
     m_MaximumAbsoluteValueFilter := m_MaximumAbsoluteValueFilter this;
     m_EigenToScalarImageFilter := Some f;
     GetInput := GetInput this;
     deref := deref this;
     GetOutput := GetOutput this;
     executed := executed this |}.

Definition withHessianFilter (h : HessianFilterType) (this : Self) : Self :=
  {| m_SigmaArray := m_SigmaArray this;
     m_HessianFilter := h;
     m_EigenAnalysisFilter := m_EigenAnalysisFilter this;
     m_MaximumAbsoluteValueFilter := m_MaximumAbsoluteValueFilter this;
     m_EigenToScalarImageFilter := m_EigenToScalarImageFilter this;
     GetInput := GetInput this;
     deref := deref this;
     GetOutput := GetOutput this;
     executed := executed this |}.

Definition withEigenAnalysisFilter (e : EigenAnalysisFilterType)
    (this : Self) : Self :=
  {| m_SigmaArray := m_SigmaArray this;
     m_HessianFilter := m_HessianFilter this;
     m_EigenAnalysisFilter := e;
     m_MaximumAbsoluteValueFilter := m_MaximumAbsoluteValueFilter this;
     m_EigenToScalarImageFilter := m_EigenToScalarImageFilter this;
     GetInput := GetInput this;
     deref := deref this;
     GetOutput := GetOutput this;
     executed := executed this |}.

Definition withMaximumAbsoluteValueFilter
    (m : MaximumAbsoluteValueFilterType) (this : Self) : Self :=
  {| m_SigmaArray := m_SigmaArray this;
     m_HessianFilter := m_HessianFilter this;
     m_EigenAnalysisFilter := m_EigenAnalysisFilter this;
     m_MaximumAbsoluteValueFilter := m;
     m_EigenToScalarImageFilter := m_EigenToScalarImageFilter this;
     GetInput := GetInput this;
     deref := deref this;
     GetOutput := GetOutput this;
     executed := executed this |}.

(** Refill the data object at [p] and record the execution that did it. *)
Definition store (p : OutputImagePointer) (img : OutputImageType)
    (ran : list Execution) (this : Self) : Self :=
  {| m_SigmaArray := m_SigmaArray this;
     m_HessianFilter := m_HessianFilter this;
     m_EigenAnalysisFilter := m_EigenAnalysisFilter this;
     m_MaximumAbsoluteValueFilter := m_MaximumAbsoluteValueFilter this;
     m_EigenToScalarImageFilter := m_EigenToScalarImageFilter this;
     GetInput := GetInput this;
     deref := fun q => if OutputImagePointer_eqb p q then Some img
                       else deref this q;
     GetOutput := GetOutput this;
     executed := ran ++ executed this |}.

Definition record (ran : list Execution) (this : Self) : Self :=
  {| m_SigmaArray := m_SigmaArray this;
     m_HessianFilter := m_HessianFilter this;
     m_EigenAnalysisFilter := m_EigenAnalysisFilter this;
     m_MaximumAbsoluteValueFilter := m_MaximumAbsoluteValueFilter this;
     m_EigenToScalarImageFilter := m_EigenToScalarImageFilter this;
     GetInput := GetInput this;
     deref := deref this;
     GetOutput := GetOutput this;
     executed := ran ++ executed this |}.

Definition withOutput (img : option OutputImageType) (this : Self) : Self :=
  {| m_SigmaArray := m_SigmaArray this;
     m_HessianFilter := m_HessianFilter this;
     m_EigenAnalysisFilter := m_EigenAnalysisFilter this;
     m_MaximumAbsoluteValueFilter := m_MaximumAbsoluteValueFilter this;
     m_EigenToScalarImageFilter := m_EigenToScalarImageFilter this;
     GetInput := GetInput this;
     deref := deref this;
     GetOutput := img;
     executed := executed this |}.

(** *** Member functions: state and exceptions *)

(** A member function returns a value or throws, and leaves the object in
    a new state either way. *)
Definition Method (A : Type) : Type := Self -> Result A * Self.

Definition ret {A : Type} (a : A) : Method A := fun this => (OK a, this).

Definition throw {A : Type} (e : ExceptionObject) : Method A :=
  fun this => (Throw e, this).

Definition bind {A B : Type} (m : Method A) (k : A -> Method B) : Method B :=
  fun this =>
    match m this with
    | (inr a, this') => k a this'
    | (inl e, this') => (Throw e, this')
    end.

Definition get : Method Self := fun this => (OK this, this).

Definition modify (f : Self -> Self) : Method unit :=
  fun this => (OK tt, f this).

Definition lift {A : Type} (r : Result A) : Method A :=
  fun this => (r, this).

Notation "x <- m ;; k" := (bind m (fun x => k))
  (at level 61, m at next level, right associativity).
Notation "m ;; k" := (bind m (fun _ => k))
  (at level 61, right associativity).

(** *** Setters of the internal filters *)

Definition SetNormalizeAcrossScale (b : bool) : Method unit :=
  modify (fun this =>
    withHessianFilter
      {| GetNormalizeAcrossScale := b;
         GetSigma := GetSigma (m_HessianFilter this) |} this).

Definition SetSigma (sigma : R) : Method unit :=
  modify (fun this =>
    withHessianFilter
      {| GetNormalizeAcrossScale :=
           GetNormalizeAcrossScale (m_HessianFilter this);
         GetSigma := sigma |} this).

Definition SetDimension (n : nat) : Method unit :=
  modify (fun this =>
    withEigenAnalysisFilter
      {| GetDimension := n;
         GetOrderEigenValuesBy :=
           GetOrderEigenValuesBy (m_EigenAnalysisFilter this) |} this).

Definition OrderEigenValuesBy (order : InternalEigenValueOrderType)
  : Method unit :=
  modify (fun this =>
    withEigenAnalysisFilter
      {| GetDimension := GetDimension (m_EigenAnalysisFilter this);
         GetOrderEigenValuesBy := order |} this).

Definition SetInput1 (p : OutputImagePointer) : Method unit :=
  modify (fun this =>
    withMaximumAbsoluteValueFilter
      {| GetInput1 := Some p;
         GetInput2 := GetInput2 (m_MaximumAbsoluteValueFilter this) |} this).

Definition SetInput2 (p : OutputImagePointer) : Method unit :=
  modify (fun this =>
    withMaximumAbsoluteValueFilter
      {| GetInput1 := GetInput1 (m_MaximumAbsoluteValueFilter this);
         GetInput2 := Some p |} this).

(** *** Executions of the internal filters *)

(** [m_EigenToScalarImageFilter->Update()]: the connected pipeline
    Hessian -> eigen analysis -> functor filter executes with the current
    settings; the response refills the functor filter's output object.  The
    tensor and eigenvalue images are released as soon as they are
    consumed. *)
Definition EigenToScalarImageFilter_Update (f : EigenToScalarImageFilterType)
  : Method unit :=
  this <- get ;;
  let h := m_HessianFilter this in
  let a := m_EigenAnalysisFilter this in
  hessian <- lift (HessianFilter_GenerateData
                     (GetNormalizeAcrossScale h) (GetSigma h)
                     (GetInput this)) ;;
  modify (record [RanHessianFilter (GetSigma h)]) ;;
  eigen <- lift (EigenAnalysisFilter_GenerateData
                   (GetDimension a) (GetOrderEigenValuesBy a) hessian) ;;
  modify (record [RanEigenAnalysisFilter]) ;;
  response <- lift (EigenToScalar_GenerateData f eigen) ;;
  modify (store EigenToScalarOutput response [RanEigenToScalarImageFilter]).

(** Modelled from the spec: [m_MaximumAbsoluteValueFilter->Update()]
    (neither the filter nor the pipeline that executes it is among the
    sources): the filter combines the images its two inputs address when it
    is called and refills its own output object.  From the second turn of
    the loop on its first input is its own output: the image read there is
    taken to be the one its last execution left, the running best image of
    section 4.4, step 4. *)
Definition MaximumAbsoluteValueFilter_Update : Method unit :=
  this <- get ;;
  let m := m_MaximumAbsoluteValueFilter this in
  match GetInput1 m, GetInput2 m with
  | Some p1, Some p2 =>
      match deref this p1, deref this p2 with
      | Some input1, Some input2 =>
          modify (store MaximumAbsoluteValueOutput
                        (MaximumAbsoluteValueFilter_GenerateData input1 input2)
                        [RanMaximumAbsoluteValueFilter])
      | _, _ => throw InputIsRequiredButNotSet
      end
  | _, _ => throw InputIsRequiredButNotSet
  end.

(** *** [ConvertType] *)

Definition ConvertType (order : ExternalEigenValueOrderType)
  : Method InternalEigenValueOrderType :=
  match order with
  | EigenToScalarImageFilterType.OrderByValue =>
      ret EigenAnalysisFilterType.OrderByValue
  | EigenToScalarImageFilterType.OrderByMagnitude =>
      ret EigenAnalysisFilterType.OrderByMagnitude
  | EigenToScalarImageFilterType.DoNotOrder =>
      ret EigenAnalysisFilterType.DoNotOrder
  | EigenToScalarImageFilterType.OutOfRange value =>
      throw (TryingToConvertBadOrder value)
  end.

(** *** [generateResponseAtScale] *)

(** The functor filter is dereferenced without a check; [GenerateData]
    only calls this after its own check has passed. *)
Definition generateResponseAtScale (scaleLevel : nat)
  : Method OutputImagePointer :=
  this <- get ;;
  match GetElement scaleLevel (m_SigmaArray this) with
  | None => throw (ArrayIndexOutOfBounds scaleLevel)
  | Some thisSigma =>
      SetSigma thisSigma ;;
      match m_EigenToScalarImageFilter this with
      | None => throw EigenToScalarImageFilterIsNotPresent
      | Some f =>
          EigenToScalarImageFilter_Update f ;;
          ret EigenToScalarOutput
      end
  end.

(** *** [GenerateData] *)

(** The body of the loop over the remaining sigma values. *)
Definition combineWithScale (outputImageTypePointer : OutputImagePointer)
    (scaleLevel : nat) : Method OutputImagePointer :=
  tempResponseOutputImageTypePointer <- generateResponseAtScale scaleLevel ;;
  SetInput1 outputImageTypePointer ;;
  SetInput2 tempResponseOutputImageTypePointer ;;
  MaximumAbsoluteValueFilter_Update ;;
  ret MaximumAbsoluteValueOutput.

(** [for (scaleLevel = 1; scaleLevel < m_SigmaArray.GetSize(); ++scaleLevel)];
    [remaining] counts the iterations still to run. *)
Fixpoint remainingScales (remaining scaleLevel : nat)
    (outputImageTypePointer : OutputImagePointer)
  : Method OutputImagePointer :=
  match remaining with
  | O => ret outputImageTypePointer
  | S remaining' =>
      p <- combineWithScale outputImageTypePointer scaleLevel ;;
      remainingScales remaining' (S scaleLevel) p
  end.

(** [GraftOutput]: the aggregator's output takes over the image the
    pointer refers to. *)
Definition GraftOutput (p : OutputImagePointer) : Method unit :=
  modify (fun this => withOutput (deref this p) this).

(** Connecting the filters, the release-data flags and the progress
    accumulator do not influence the images and are left out. *)
Definition GenerateData : Method unit :=
  this <- get ;;
  match m_EigenToScalarImageFilter this with
  | None => throw EigenToScalarImageFilterIsNotPresent
  | Some f =>
      if (Array.GetSize (m_SigmaArray this) <? 1)%nat
      then throw (SigmaArrayMustHaveAtLeastOneSigmaValue
                    (Array.GetSize (m_SigmaArray this)))
      else
        SetNormalizeAcrossScale true ;;
        SetDimension ImageDimension ;;
        order <- ConvertType (GetEigenValueOrder f) ;;
        OrderEigenValuesBy order ;;
        outputImageTypePointer <- generateResponseAtScale 0 ;;
        outputImageTypePointer <-
          remainingScales (Array.GetSize (m_SigmaArray this) - 1) 1
                          outputImageTypePointer ;;
        GraftOutput outputImageTypePointer
  end.

(** *** The single-scale pipeline, in the words of the specification

    TensorField -> Decompose -> (Estimate ->) Measure at one scale, with
    the ordering policy the functor declares. *)

Definition TensorField (sigma : R) (grid : InputImageType)
  : Result HessianImageType :=
  HessianFilter_GenerateData true sigma grid.

Definition Decompose (policy : InternalEigenValueOrderType)
    (field : HessianImageType) : Result EigenImageType :=
  EigenAnalysisFilter_GenerateData ImageDimension policy field.

Definition Measure (f : EigenToScalarImageFilterType)
    (eigenvalues : EigenImageType) : Result OutputImageType :=
  EigenToScalar_GenerateData f eigenvalues.

Definition declaredPolicy (f : EigenToScalarImageFilterType)
  : Result InternalEigenValueOrderType :=
  match GetEigenValueOrder f with
  | EigenToScalarImageFilterType.OrderByValue =>
      OK EigenAnalysisFilterType.OrderByValue
  | EigenToScalarImageFilterType.OrderByMagnitude =>
      OK EigenAnalysisFilterType.OrderByMagnitude
  | EigenToScalarImageFilterType.DoNotOrder =>
      OK EigenAnalysisFilterType.DoNotOrder
  | EigenToScalarImageFilterType.OutOfRange value =>
      Throw (TryingToConvertBadOrder value)
  end.

Definition andThen {A B : Type} (r : Result A) (k : A -> Result B)
  : Result B :=
  match r with inl e => inl e | inr a => k a end.

Definition SingleScalePipeline (f : EigenToScalarImageFilterType)
    (grid : InputImageType) (sigma : R) : Result OutputImageType :=
  andThen (declaredPolicy f) (fun policy =>
  andThen (TensorField sigma grid) (fun field =>
  andThen (Decompose policy field) (fun eigenvalues =>
  Measure f eigenvalues))).

(** What a client sees of a run: the exception, or the grafted output. *)
Definition Update (this : Self) : Result (option OutputImageType) :=
  match GenerateData this with
  | (inl e, _) => Throw e
  | (inr _, this') => OK (GetOutput this')
  end.

End Aggregator.

(** *** Stand-ins for the collaborators, to run the aggregator on

    The tensor and eigenvalue stages pass the scale and the image on; the
    functor filter answers [pixel * (sigma - 2)], which changes sign
    between the scales 1 and 3. *)

#[export] Instance passThrough : Collaborators := {
  InputImageType := Image R;
  HessianImageType := (R * Image R)%type;
  EigenImageType := (R * Image R)%type;
  SecondDerivatives := fun _ sigma img => (sigma, img);
  EigenAnalysisFilter_GenerateData := fun _ _ tensor => OK tensor
}.

Definition signedResponse : EigenToScalarImageFilterType :=
  {| GetEigenValueOrder := EigenToScalarImageFilterType.OrderByMagnitude;
     EigenToScalar_GenerateData := fun '(sigma, img) =>
       OK {| GetBufferedRegion := GetBufferedRegion img;
             GetPixel := fun idx => GetPixel img idx * (sigma - 2);
             TransformIndexToPhysicalPoint :=
               TransformIndexToPhysicalPoint img |} |}.

Definition oneVoxel : ImageRegion :=
  {| GetIndex := (0, 0, 0)%Z; GetSize := (1, 1, 1)%nat |}.

Definition unitImage : Image R := FillBuffer oneVoxel 1.

Definition fresh : Self := New (collaborators := passThrough) unitImage.

Definition singleScale : Self :=
  SetEigenToScalarImageFilter signedResponse (SetSigmaArray [3] fresh).

Definition negativeScale : Self :=
  SetEigenToScalarImageFilter signedResponse (SetSigmaArray [-1] fresh).

End MultiScale.

(** ** Work units of the multi-threader *)

Module Threads.
Import Image.

(** The pieces a splitter hands out do not overlap. *)
Definition disjoint (split : Splitter) : Prop :=
  forall r,
    ForallOrdPairs
      (fun piece piece' =>
         forall idx, IsInside piece idx = true -> IsInside piece' idx = false)
      (split r).

(** A run with two work units: the region is cut in two along its last
    axis. *)
Definition TwoThreads : Splitter := fun r =>
  let '(x0, y0, z0) := GetIndex r in
  let '(sx, sy, sz) := GetSize r in
  let first := (sz / 2)%nat in
  [ {| GetIndex := (x0, y0, z0); GetSize := (sx, sy, first) |};
    {| GetIndex := (x0, y0, (z0 + Z.of_nat first)%Z);
       GetSize := (sx, sy, (sz - first)%nat) |} ].

End Threads.

(** ** A run of the aggregator, scale by scale *)

Module MultiScaleRun.
Import Array Image MultiScale.

(** The executions of one pass of the mini-pipeline at a scale, in the
    order in which they complete. *)
Definition pipelineAt (sigma : R) : list Execution :=
  [RanHessianFilter sigma; RanEigenAnalysisFilter;
   RanEigenToScalarImageFilter].

(** The executions of a complete run over a sigma array, in the order in
    which they complete: the pipeline at the first scale, then for every
    later scale the pipeline followed by the maximum-absolute-value
    filter. *)
Definition scheduleTrace (sigmas : Array) : list Execution :=
  match sigmas with
  | [] => []
  | sigma0 :: rest =>
      pipelineAt sigma0
      ++ flat_map (fun sigma => pipelineAt sigma
                                ++ [RanMaximumAbsoluteValueFilter]) rest
  end.

Section Aggregator.
Context {collaborators : Collaborators}.

(** What [m_EigenToScalarImageFilter->Update()] computes at a sigma with
    the settings the internal filters of [this] have. *)
Definition responseAt (this : Self) (f : EigenToScalarImageFilterType)
    (sigma : R) : Result OutputImageType :=
  andThen (HessianFilter_GenerateData
             (GetNormalizeAcrossScale (m_HessianFilter this)) sigma
             (GetInput this))
          (fun tensor =>
             andThen (EigenAnalysisFilter_GenerateData
                        (GetDimension (m_EigenAnalysisFilter this))
                        (GetOrderEigenValuesBy (m_EigenAnalysisFilter this))
                        tensor)
                     (EigenToScalar_GenerateData f)).

(** The parts of the aggregator that a pass of the pipeline or of the
    maximum-absolute-value filter leaves alone. *)
Definition sameConfiguration (this this1 : Self) : Prop :=
  m_SigmaArray this1 = m_SigmaArray this
  /\ m_EigenToScalarImageFilter this1 = m_EigenToScalarImageFilter this
  /\ GetInput this1 = GetInput this
  /\ GetOutput this1 = GetOutput this
  /\ m_EigenAnalysisFilter this1 = m_EigenAnalysisFilter this
  /\ GetNormalizeAcrossScale (m_HessianFilter this1)
     = GetNormalizeAcrossScale (m_HessianFilter this).

(** The aggregator after the three parameter settings of [GenerateData]
    with a converted order. *)
Definition configured (order : InternalEigenValueOrderType) (this : Self)
  : Self :=
  snd (bind (SetNormalizeAcrossScale true) (fun _ =>
       bind (SetDimension ImageDimension) (fun _ =>
       OrderEigenValuesBy order)) this).

End Aggregator.

(** *** Aggregators to run

    With the stand-in collaborators the response at a scale [sigma] has
    the value [sigma - 2] at the voxel. *)

Definition threeScales : Self :=
  SetEigenToScalarImageFilter signedResponse (SetSigmaArray [1; 3; 5] fresh).

(** Two scales, the response of the first one (3 at the voxel) larger in
    magnitude than that of the second (-1). *)
Definition firstScaleDominates : Self :=
  SetEigenToScalarImageFilter signedResponse (SetSigmaArray [5; 1] fresh).

(** A schedule whose second scale the tensor-field stage rejects. *)
Definition secondScaleRejected : Self :=
  SetEigenToScalarImageFilter signedResponse (SetSigmaArray [1; -1] fresh).

(** A functor filter that declares an eigenvalue order outside the
    enumeration. *)
Definition unorderedResponse : EigenToScalarImageFilterType :=
  {| GetEigenValueOrder := EigenToScalarImageFilterType.OutOfRange 7;
     EigenToScalar_GenerateData :=
       EigenToScalar_GenerateData signedResponse |}.

Definition badOrder : Self :=
  SetEigenToScalarImageFilter unorderedResponse (SetSigmaArray [3] fresh).

(** The response of the stand-in pipeline at a scale. *)
Definition responseOfScale (sigma : R) : OutputImageType :=
  {| GetBufferedRegion := oneVoxel;
     GetPixel := fun idx => GetPixel unitImage idx * (sigma - 2);
     TransformIndexToPhysicalPoint := unitGeometry |}.

End MultiScaleRun.

(** * Part II: properties *)

Module SigmaArrayFacts.
Import Array SigmaArray.

Lemma SetElement_length i x a : length (SetElement i x a) = length a.
Proof.
  revert i; induction a as [|h t IH]; intros [|i]; simpl; auto.
Qed.

Lemma SetElement_same i x a :
  (i < length a)%nat -> nth_error (SetElement i x a) i = Some x.
Proof.
  revert i; induction a as [|h t IH]; intros [|i] Hi; simpl in *;
    try lia; auto.
  apply IH; lia.
Qed.

Lemma SetElement_other i j x a :
  i <> j -> nth_error (SetElement i x a) j = nth_error a j.
Proof.
  revert i j; induction a as [|h t IH]; intros [|i] [|j] Hij; simpl;
    try congruence; auto.
Qed.

(** The step size of either method is strictly positive: it is clamped
    from below by [1e-10]. *)
Lemma stepSize_pos x : 0 < Rmax 1e-10 x.
Proof.
  apply Rlt_le_trans with (r2 := 1e-10); [lra | apply Rmax_l].
Qed.

Lemma thisSigma_known lo hi n m lvl :
  knownMethod m -> thisSigma lo hi n m lvl = OK (levelValue lo hi n m lvl).
Proof. intros [-> | ->]; reflexivity. Qed.

Lemma populate_known lo hi n m :
  knownMethod m ->
  forall remaining lvl arr,
    (lvl + remaining <= length arr)%nat ->
    exists arr',
      populate lo hi n m remaining lvl arr = OK arr'
      /\ length arr' = length arr
      /\ forall i,
          nth_error arr' i =
            if (lvl <=? i)%nat && (i <? lvl + remaining)%nat
            then Some (levelValue lo hi n m i)
            else nth_error arr i.
Proof.
  intros Hm; induction remaining as [|r IH]; intros lvl arr Hlen; simpl.
  - exists arr; repeat split; auto.
    intros i. destruct (Nat.leb_spec lvl i), (Nat.ltb_spec i (lvl + 0));
      simpl; auto; lia.
  - rewrite (thisSigma_known _ _ _ _ _ Hm); simpl.
    destruct (IH (S lvl) (SetElement lvl (levelValue lo hi n m lvl) arr))
      as (arr' & Hrun & Hl & Hnth).
    { rewrite SetElement_length; lia. }
    exists arr'; split; [exact Hrun|]; split.
    { now rewrite Hl, SetElement_length. }
    intros i; rewrite Hnth.
    destruct (Nat.eq_dec lvl i) as [->|Hne].
    + rewrite SetElement_same by lia.
      destruct (Nat.leb_spec (S i) i), (Nat.ltb_spec i (S i + r)),
        (Nat.leb_spec i i), (Nat.ltb_spec i (i + S r)); simpl; auto; lia.
    + rewrite SetElement_other by exact Hne.
      destruct (Nat.leb_spec (S lvl) i), (Nat.ltb_spec i (S lvl + r)),
        (Nat.leb_spec lvl i), (Nat.ltb_spec i (lvl + S r)); simpl; auto; lia.
Qed.

(** Along either method the stored values grow with the level. *)
Lemma levelValue_mono lo hi n m i j :
  (i <= j)%nat -> levelValue lo hi n m i <= levelValue lo hi n m j.
Proof.
  intros Hij. apply le_INR in Hij.
  destruct m; simpl.
  - pose proof (stepSize_pos ((hi - lo) / IZR (n - 1))). nra.
  - pose proof (stepSize_pos ((ln hi - ln lo) / IZR (n - 1))).
    destruct (Req_dec (INR i) (INR j)) as [->|Hne]; [lra|].
    left; apply exp_increasing. nra.
  - pose proof (stepSize_pos ((hi - lo) / IZR (n - 1))). nra.
Qed.

Lemma levelValue_above_min lo hi n m i :
  0 < lo -> lo <= levelValue lo hi n m i.
Proof.
  intros Hlo. pose proof (pos_INR i) as Hi.
  destruct m; simpl.
  - pose proof (stepSize_pos ((hi - lo) / IZR (n - 1))). nra.
  - pose proof (stepSize_pos ((ln hi - ln lo) / IZR (n - 1))) as Hs.
    rewrite <- (exp_ln lo Hlo) at 1.
    destruct (Req_dec (INR i) 0) as [->|Hne].
    + rewrite Rmult_0_r, Rplus_0_r. lra.
    + left; apply exp_increasing. nra.
  - pose proof (stepSize_pos ((hi - lo) / IZR (n - 1))). nra.
Qed.

(** What [GenerateSigmaArray] returns for a valid request with one of the
    two known step methods, in terms of the bounds after the swap. *)
Lemma GenerateSigmaArray_known a b n m :
  (1 <= n)%Z -> knownMethod m ->
  let lo := Rmin a b in
  let hi := Rmax a b in
  let n' := if Req_dec_T lo hi then 1%Z else n in
  exists arr,
    GenerateSigmaArray a b n m = OK arr
    /\ length arr = Z.to_nat n'
    /\ nth_error arr 0 = Some lo
    /\ forall i, (1 <= i < Z.to_nat n')%nat ->
                 nth_error arr i = Some (levelValue lo hi n' m i).
Proof.
  intros Hn Hm lo hi n'.
  unfold GenerateSigmaArray.
  destruct (Z.ltb_spec n 1) as [Hlt|_]; [lia|].
  cbv zeta; unfold SigmaType.
  assert (Hlo : (if Rgt_dec a b then b else a) = lo).
  { unfold lo, Rmin. destruct (Rgt_dec a b), (Rle_dec a b); lra. }
  assert (Hhi : (if Rgt_dec a b then a else b) = hi).
  { unfold hi, Rmax. destruct (Rgt_dec a b), (Rle_dec a b); lra. }
  rewrite Hlo, Hhi. fold n'.
  assert (Hn' : (1 <= n')%Z) by (unfold n'; destruct (Req_dec_T lo hi); lia).
  set (arr0 := SetElement 0 lo (SetSize (Z.to_nat n'))).
  assert (Hlen0 : length arr0 = Z.to_nat n').
  { unfold arr0, SetSize. now rewrite SetElement_length, repeat_length. }
  destruct (populate_known lo hi n' m Hm (GetSize arr0 - 1) 1 arr0)
    as (arr & Hrun & Hlen & Hnth).
  { unfold GetSize. lia. }
  exists arr; split; [exact Hrun|]; split;
    [exact (eq_trans Hlen Hlen0)|]; split.
  - rewrite Hnth.
    change ((1 <=? 0)%nat && (0 <? 1 + (GetSize arr0 - 1))%nat) with false.
    cbv iota. unfold arr0. apply SetElement_same.
    unfold SetSize; rewrite repeat_length; lia.
  - intros i Hi. rewrite Hnth. unfold GetSize. rewrite Hlen0.
    destruct (Nat.leb_spec 1 i), (Nat.ltb_spec i (1 + (Z.to_nat n' - 1)));
      simpl; auto; lia.
Qed.

(** Three equispaced steps from 1 to 5, with the bounds given in either
    order. *)
Example GenerateEquispacedSigmaArray_1_5_3 :
  GenerateEquispacedSigmaArray 1 5 3%Z = OK [1; 3; 5]
  /\ GenerateEquispacedSigmaArray 5 1 3%Z = OK [1; 3; 5].
Proof.
  assert (Hstep : Rmax 1e-10 ((5 - 1) / IZR (3 - 1)) = 2).
  { simpl. unfold Rmax. destruct (Rle_dec _ _); lra. }
  unfold GenerateEquispacedSigmaArray, GenerateSigmaArray.
  change (3 <? 1)%Z with false. cbv zeta iota.
  split.
  - destruct (Rgt_dec 1 5) as [Hgt|_]; [lra|].
    destruct (Req_dec_T 1 5) as [Heq|_]; [lra|].
    change (Z.to_nat 3) with 3%nat.
    cbn [SetSize repeat SetElement GetSize length Nat.sub populate
         thisSigma].
    unfold OK. rewrite Hstep. repeat f_equal; simpl; lra.
  - destruct (Rgt_dec 5 1) as [_|Hn]; [|lra].
    destruct (Req_dec_T 1 5) as [Heq|_]; [lra|].
    change (Z.to_nat 3) with 3%nat.
    cbn [SetSize repeat SetElement GetSize length Nat.sub populate
         thisSigma].
    unfold OK. rewrite Hstep. repeat f_equal; simpl; lra.
Qed.

(** C5: for a valid request (count at least 1, positive bounds) with the
    equispaced or the logarithmic step method, [GenerateSigmaArray]
    returns a schedule whose element at index 0 is exactly the smaller of
    the two bounds and whose values never decrease with the index. *)
Theorem GenerateSigmaArray_minimum_first_nondecreasing
    (a b : SigmaType) (n : SigmaStepsType) (m : SigmaStepMethodEnum) :
  (1 <= n)%Z -> 0 < a -> 0 < b -> knownMethod m ->
  exists arr,
    GenerateSigmaArray a b n m = OK arr
    /\ GetElement 0 arr = Some (Rmin a b)
    /\ forall i j x y,
        (i <= j)%nat ->
        GetElement i arr = Some x -> GetElement j arr = Some y -> x <= y.
Proof.
  intros Hn Ha Hb Hm.
  destruct (GenerateSigmaArray_known a b n m Hn Hm)
    as (arr & Hrun & Hlen & H0 & Hrest).
  exists arr; split; [exact Hrun|]; split; [exact H0|].
  assert (Hlo : 0 < Rmin a b) by (apply Rmin_pos; assumption).
  unfold GetElement. intros i j x y Hij Hi Hj.
  assert (Hjlt : (j < length arr)%nat).
  { apply nth_error_Some; congruence. }
  destruct i as [|i].
  - rewrite H0 in Hi; injection Hi as <-.
    destruct j as [|j].
    + rewrite H0 in Hj; injection Hj as <-; lra.
    + rewrite Hrest in Hj by lia. injection Hj as <-.
      now apply levelValue_above_min.
  - rewrite Hrest in Hi by lia. rewrite Hrest in Hj by lia.
    injection Hi as <-; injection Hj as <-.
    now apply levelValue_mono.
Qed.

Lemma GenerateSigmaArray_minimum_first_nondecreasing_witness :
  exists arr,
    GenerateSigmaArray 4 1 3%Z LogarithmicSigmaSteps = OK arr
    /\ GetElement 0 arr = Some (Rmin 4 1)
    /\ forall i j x y,
        (i <= j)%nat ->
        GetElement i arr = Some x -> GetElement j arr = Some y -> x <= y.
Proof.
  apply (GenerateSigmaArray_minimum_first_nondecreasing
           4 1 3%Z LogarithmicSigmaSteps).
  - lia.
  - lra.
  - lra.
  - right; reflexivity.
Defined.

(** C8, as stated, fails when the requested count is below 1: the count
    check comes first and throws, whatever the bounds are. *)
Lemma GenerateSigmaArray_equal_bounds_zero_count :
  GenerateSigmaArray 2 2 0%Z EquispacedSigmaSteps
    = Throw NumberOfSigmaValuesRequestedIsLessThanOne
  /\ GenerateSigmaArray 2 2 0%Z EquispacedSigmaSteps <> OK [2].
Proof.
  split; [reflexivity | discriminate].
Qed.

(** C8 (amended): when the two bounds are equal and the requested count
    is at least 1, the returned schedule is the one-element array holding
    the common value, whatever the requested count and step method. *)
Theorem GenerateSigmaArray_equal_bounds
    (a : SigmaType) (n : SigmaStepsType) (m : SigmaStepMethodEnum) :
  (1 <= n)%Z -> GenerateSigmaArray a a n m = OK [a].
Proof.
  intros Hn. unfold GenerateSigmaArray.
  destruct (Z.ltb_spec n 1) as [Hlt|_]; [lia|]. cbv zeta.
  destruct (Rgt_dec a a) as [Hgt|_]; [lra|].
  destruct (Req_dec_T a a) as [_|Hne]; [|congruence].
  reflexivity.
Qed.

Lemma GenerateSigmaArray_equal_bounds_witness :
  GenerateSigmaArray 2 2 5%Z LogarithmicSigmaSteps = OK [2].
Proof.
  apply (GenerateSigmaArray_equal_bounds 2 5%Z LogarithmicSigmaSteps). lia.
Defined.

End SigmaArrayFacts.

Module ImageFacts.
Import Image.

Lemma Index_eqb_eq i j : Index_eqb i j = true <-> i = j.
Proof.
  destruct i as [[x y] z], j as [[x' y'] z']; simpl.
  rewrite !andb_true_iff, !Z.eqb_eq. split.
  - intros [[-> ->] ->]; reflexivity.
  - intros E; injection E; auto.
Qed.

Lemma Index_eqb_refl i : Index_eqb i i = true.
Proof. now apply Index_eqb_eq. Qed.

Lemma Index_eqb_neq i j : i <> j -> Index_eqb i j = false.
Proof.
  intros Hne. destruct (Index_eqb i j) eqn:E; [|reflexivity].
  apply Index_eqb_eq in E; contradiction.
Qed.

Lemma span_In start size x :
  In x (span start size) <-> within start size x = true.
Proof.
  unfold span, within. rewrite in_map_iff, andb_true_iff, Z.leb_le, Z.ltb_lt.
  split.
  - intros (k & <- & Hk). apply in_seq in Hk. lia.
  - intros [Hlo Hhi]. exists (Z.to_nat (x - start)). split; [lia|].
    apply in_seq. lia.
Qed.

(** The iterator visits exactly the indices inside the region. *)
Lemma Walk_In r idx : In idx (Walk r) <-> IsInside r idx = true.
Proof.
  destruct r as [[[x0 y0] z0] [[sx sy] sz]], idx as [[x y] z].
  unfold Walk, IsInside; simpl.
  rewrite !andb_true_iff, in_flat_map. split.
  - intros (z' & Hz & Hin). apply in_flat_map in Hin.
    destruct Hin as (y' & Hy & Hin). apply in_map_iff in Hin.
    destruct Hin as (x' & E & Hx). injection E as <- <- <-.
    now rewrite <- !span_In.
  - intros [[Hx Hy] Hz]. exists z. split; [now apply span_In|].
    apply in_flat_map. exists y. split; [now apply span_In|].
    apply in_map_iff. exists x. split; [reflexivity | now apply span_In].
Qed.

Lemma existsb_Index_eqb l j :
  existsb (fun idx => Index_eqb idx j) l = true <-> In j l.
Proof.
  rewrite existsb_exists. split.
  - intros (idx & Hin & E). apply Index_eqb_eq in E. now subst.
  - intros Hin. exists j. split; [exact Hin | apply Index_eqb_refl].
Qed.

Lemma SetRegion_region {A : Type} region (v : A) img :
  GetBufferedRegion (SetRegion region v img) = GetBufferedRegion img.
Proof.
  unfold SetRegion. generalize (Walk region) img.
  induction l as [|idx l IH]; intros img0; simpl; [reflexivity|].
  now rewrite IH.
Qed.

(** Setting a value over a region overwrites exactly the pixels inside. *)
Lemma SetRegion_pixel {A : Type} region (v : A) img j :
  GetPixel (SetRegion region v img) j
  = if IsInside region j then v else GetPixel img j.
Proof.
  unfold SetRegion.
  assert (Hfold : forall l img0,
             GetPixel (fold_left (fun img idx => SetPixel img idx v) l img0) j
             = if existsb (fun idx => Index_eqb idx j) l
               then v else GetPixel img0 j).
  { induction l as [|idx l IH]; intros img0; simpl; [reflexivity|].
    rewrite IH. simpl.
    destruct (Index_eqb idx j); simpl; [|reflexivity].
    destruct (existsb _ l); reflexivity. }
  rewrite Hfold.
  destruct (IsInside region j) eqn:E.
  - apply Walk_In, existsb_Index_eqb in E. now rewrite E.
  - destruct (existsb _ (Walk region)) eqn:E'; [|reflexivity].
    apply existsb_Index_eqb, Walk_In in E'. congruence.
Qed.

Lemma SingleThread_covers : covers SingleThread.
Proof.
  intros r idx; unfold SingleThread; simpl. split.
  - intros Hin; exists r; auto.
  - intros (piece & [<- | []] & Hin); exact Hin.
Qed.

End ImageFacts.

Module EigenToMeasureFacts.
Import Image ImageFacts EigenToMeasure.

Section Walks.
Context {Self : Type} `{EigenToMeasureImageFilter Self}.
Variables (this : Self) (inputPtr : InputImageType)
          (maskPointer : option MaskSpatialObjectType).

Lemma visit_pixel w idx j :
  GetPixel (outputPtr (visit this inputPtr maskPointer w idx)) j
  = if Index_eqb idx j
    then written this inputPtr maskPointer idx
    else GetPixel (outputPtr w) j.
Proof.
  unfold visit, written.
  destruct (passesMask maskPointer _); simpl; reflexivity.
Qed.

Lemma visit_evaluated w idx j :
  In j (evaluated (visit this inputPtr maskPointer w idx))
  <-> (j = idx
       /\ passesMask maskPointer
            (TransformIndexToPhysicalPoint inputPtr idx) = true)
      \/ In j (evaluated w).
Proof.
  unfold visit.
  destruct (passesMask maskPointer _) eqn:E; simpl.
  - split; [intros [<- | Hin]; auto | intros [[-> _] | Hin]; auto].
  - split; [auto | intros [[_ Hf] | Hin]; [discriminate | auto]].
Qed.

Lemma visits_pixel l : forall w j,
  GetPixel (outputPtr (fold_left (visit this inputPtr maskPointer) l w)) j
  = if existsb (fun idx => Index_eqb idx j) l
    then written this inputPtr maskPointer j
    else GetPixel (outputPtr w) j.
Proof.
  induction l as [|idx l IH]; intros w j; simpl; [reflexivity|].
  rewrite IH, visit_pixel.
  destruct (Index_eqb idx j) eqn:E; simpl.
  - apply Index_eqb_eq in E; subst j.
    destruct (existsb _ l); reflexivity.
  - reflexivity.
Qed.

Lemma visits_evaluated l : forall w j,
  In j (evaluated (fold_left (visit this inputPtr maskPointer) l w))
  <-> (In j l
       /\ passesMask maskPointer
            (TransformIndexToPhysicalPoint inputPtr j) = true)
      \/ In j (evaluated w).
Proof.
  induction l as [|idx l IH]; intros w j; simpl.
  - tauto.
  - rewrite IH, visit_evaluated. split.
    + intros [[Hin Hp] | [[-> Hp] | Hin]]; auto.
    + intros [[[<- | Hin] Hp] | Hin]; auto.
Qed.

(** After the pieces of a split have been walked, the voxels inside some
    piece hold the value the loop writes, the others what they held. *)
Lemma pieces_pixel pieces : forall w j,
  GetPixel
    (outputPtr
       (fold_left (processRegion this inputPtr maskPointer) pieces w)) j
  = if existsb (fun piece => IsInside piece j) pieces
    then written this inputPtr maskPointer j
    else GetPixel (outputPtr w) j.
Proof.
  induction pieces as [|piece pieces IH]; intros w j; simpl;
    [reflexivity|].
  rewrite IH. unfold processRegion. rewrite visits_pixel.
  destruct (IsInside piece j) eqn:E; simpl.
  - apply Walk_In, existsb_Index_eqb in E. rewrite E.
    destruct (existsb _ pieces); reflexivity.
  - destruct (existsb (fun idx => Index_eqb idx j) (Walk piece)) eqn:E';
      [|reflexivity].
    apply existsb_Index_eqb, Walk_In in E'. congruence.
Qed.

(** [ProcessPixel] has been called exactly at the walked voxels that pass
    the mask test. *)
Lemma pieces_evaluated pieces : forall w j,
  In j (evaluated
          (fold_left (processRegion this inputPtr maskPointer) pieces w))
  <-> ((exists piece, In piece pieces /\ IsInside piece j = true)
       /\ passesMask maskPointer
            (TransformIndexToPhysicalPoint inputPtr j) = true)
      \/ In j (evaluated w).
Proof.
  induction pieces as [|piece pieces IH]; intros w j; simpl.
  - split; [auto | intros [[(p & [] & _) _] | Hin]; auto].
  - rewrite IH. unfold processRegion. rewrite visits_evaluated.
    rewrite Walk_In. split.
    + intros [[(p & Hp & Hin) Hm] | [[Hin Hm] | Hin]]; eauto 8.
    + intros [[(p & [<- | Hp] & Hin) Hm] | Hin]; eauto 8.
Qed.

End Walks.

(** C3: for every voxel of the requested output region, if a mask is
    present and the voxel's physical point is outside it, the output is
    exactly 0 and [ProcessPixel] is not called for that voxel; if no mask
    is present or the point is inside, the output is [ProcessPixel]
    applied to the voxel's eigenvalue triple.  The statement is generic in
    the formula variant (any instance of the filter interface) and in the
    way the region is split among threads. *)
Theorem GenerateData_zero_outside_mask_formula_inside
    {Self : Type} `{EigenToMeasureImageFilter Self}
    (split : Splitter) (this : Self) (inputPtr : InputImageType)
    (maskPointer : option MaskSpatialObjectType)
    (allocated : OutputImageType) (idx : IndexType) :
  covers split ->
  IsInside (GetBufferedRegion allocated) idx = true ->
  let w := snd (GenerateData split this inputPtr maskPointer allocated) in
  let point := TransformIndexToPhysicalPoint inputPtr idx in
  (forall mask,
      maskPointer = Some mask ->
      IsInsideInObjectSpace mask point = false ->
      GetPixel (outputPtr w) idx = 0 /\ ~ In idx (evaluated w))
  /\ ((maskPointer = None
       \/ exists mask,
           maskPointer = Some mask
           /\ IsInsideInObjectSpace mask point = true) ->
      GetPixel (outputPtr w) idx
      = ProcessPixel (BeforeThreadedGenerateData this)
                     (GetPixel inputPtr idx)
      /\ In idx (evaluated w)).
Proof.
  intros Hcov Hin w point.
  assert (Hpieces :
            existsb (fun piece => IsInside piece idx)
                    (split (GetBufferedRegion allocated)) = true).
  { apply existsb_exists. now apply Hcov. }
  assert (Hpix :
            GetPixel (outputPtr w) idx
            = if passesMask maskPointer point
              then ProcessPixel (BeforeThreadedGenerateData this)
                                (GetPixel inputPtr idx)
              else 0).
  { unfold w, GenerateData, ParallelizeImageRegion; simpl.
    rewrite pieces_pixel, Hpieces. reflexivity. }
  assert (Hev :
            In idx (evaluated w) <-> passesMask maskPointer point = true).
  { unfold w, GenerateData, ParallelizeImageRegion; simpl.
    rewrite pieces_evaluated; simpl. split.
    - intros [[_ Hp] | []]; exact Hp.
    - intros Hp; left; split; [now apply Hcov | exact Hp]. }
  split.
  - intros mask -> Hout. simpl in Hpix, Hev. rewrite Hout in Hpix, Hev.
    split; [exact Hpix|]. rewrite Hev; discriminate.
  - intros Hpass.
    assert (Hp : passesMask maskPointer point = true).
    { destruct Hpass as [-> | (mask & -> & Hi)]; [reflexivity | exact Hi]. }
    rewrite Hp in Hpix. split; [exact Hpix | now apply Hev].
Qed.

Lemma GenerateData_zero_outside_mask_formula_inside_witness :
  let w := snd (GenerateData SingleThread tt sampleInput
                             (Some halfSpaceMask) sampleAllocated) in
  (GetPixel (outputPtr w) (1, 0, 0)%Z = 0
   /\ ~ In (1, 0, 0)%Z (evaluated w))
  /\ (GetPixel (outputPtr w) (0, 0, 0)%Z = 0 + 2 + 3
      /\ In (0, 0, 0)%Z (evaluated w)).
Proof.
  intros w. split.
  - destruct (GenerateData_zero_outside_mask_formula_inside
                SingleThread tt sampleInput (Some halfSpaceMask)
                sampleAllocated (1, 0, 0)%Z SingleThread_covers eq_refl)
      as [Hout _].
    apply (Hout halfSpaceMask eq_refl).
    simpl. destruct (Rle_dec 1 0) as [Hle|_]; [lra | reflexivity].
  - destruct (GenerateData_zero_outside_mask_formula_inside
                SingleThread tt sampleInput (Some halfSpaceMask)
                sampleAllocated (0, 0, 0)%Z SingleThread_covers eq_refl)
      as [_ Hin].
    apply Hin. right. exists halfSpaceMask. split; [reflexivity|].
    simpl. destruct (Rle_dec 0 0) as [_|Hn]; [reflexivity | lra].
Defined.

End EigenToMeasureFacts.

Module DescoteauxFacts.
Import Array Image ImageFacts Descoteaux SigmaArrayFacts.

Lemma CalculateFrobeniusNorm_nonneg pixel : 0 <= CalculateFrobeniusNorm pixel.
Proof. destruct pixel as [[l1 l2] l3]; apply sqrt_pos. Qed.

(** A running maximum over the selected elements of a list. *)
Lemma running_max_spec {A : Type} (sel : A -> bool) (f : A -> R) (l : list A) :
  forall a,
    let r := fold_left (fun max x => if sel x then Rmax max (f x) else max)
                       l a in
    a <= r
    /\ (forall x, In x l -> sel x = true -> f x <= r)
    /\ (r = a \/ exists x, In x l /\ sel x = true /\ f x = r).
Proof.
  induction l as [|y l IH]; intros a; simpl.
  - split; [lra|]. split; [intros x []|]. now left.
  - destruct (IH (if sel y then Rmax a (f y) else a)) as (Hge & Hall & Hex).
    destruct (sel y) eqn:Hy.
    + split; [|split].
      * eapply Rle_trans; [apply Rmax_l | exact Hge].
      * intros x [<- | Hin] Hx; [|now apply Hall].
        eapply Rle_trans; [apply Rmax_r | exact Hge].
      * destruct Hex as [Heq | (x & Hin & Hx & Hfx)].
        -- rewrite Heq. unfold Rmax. destruct (Rle_dec a (f y)).
           ++ right; exists y; auto.
           ++ now left.
        -- right; exists x; auto.
    + split; [exact Hge|]. split.
      * intros x [<- | Hin] Hx; [congruence | now apply Hall].
      * destruct Hex as [Heq | (x & Hin & Hx & Hfx)]; [now left|].
        right; exists x; auto.
Qed.

(** The merge of the accumulators. *)
Lemma merge_spec (acc : Array) :
  let r := fold_left Rmax acc 0 in
  0 <= r /\ (forall x, In x acc -> x <= r) /\ (r = 0 \/ In r acc).
Proof.
  intros r.
  pose proof (running_max_spec (fun _ : R => true) (fun x => x) acc 0)
    as (Hge & Hall & Hex).
  change (fold_left _ acc 0) with r in Hge, Hall, Hex.
  split; [exact Hge|]. split.
  - intros x Hin; now apply Hall.
  - destruct Hex as [Heq | (x & Hin & _ & Hx)]; [now left|].
    right. now subst x.
Qed.

(** The scan of a region only looks at the mask and the background
    label of the filter. *)
Lemma scanRegion_ext this this' input region :
  GetMaskImage this' = GetMaskImage this ->
  m_BackgroundValue this' = m_BackgroundValue this ->
  scanRegion this' input region = scanRegion this input region.
Proof.
  intros Hm Hb. unfold scanRegion.
  assert (E : forall idx, IsForeground this' idx = IsForeground this idx).
  { intros idx; unfold IsForeground; now rewrite Hm, Hb. }
  generalize (Walk region) 0.
  induction l as [|idx l IH]; intros a; simpl; [reflexivity|].
  now rewrite E, IH.
Qed.

Lemma scanRegion_spec this input region :
  let r := scanRegion this input region in
  0 <= r
  /\ (forall idx, IsInside region idx = true -> IsForeground this idx = true ->
                  CalculateFrobeniusNorm (GetPixel input idx) <= r)
  /\ (r = 0
      \/ exists idx, IsInside region idx = true
                     /\ IsForeground this idx = true
                     /\ CalculateFrobeniusNorm (GetPixel input idx) = r).
Proof.
  pose proof (running_max_spec (IsForeground this)
                (fun idx => CalculateFrobeniusNorm (GetPixel input idx))
                (Walk region) 0) as (Hge & Hall & Hex).
  cbv beta zeta in *. unfold scanRegion. split; [exact Hge|]. split.
  - intros idx Hin; apply Hall. now apply Walk_In.
  - destruct Hex as [Heq | (idx & Hin & Hfg & Hv)]; [now left|].
    right; exists idx. apply Walk_In in Hin. auto.
Qed.

(** The threaded phase touches nothing but the accumulators. *)
Lemma runThreads_frame input pieces : forall threadId this,
  let this' := runThreads input pieces threadId this in
  m_FrobeniusNormWeight this' = m_FrobeniusNormWeight this
  /\ m_BackgroundValue this' = m_BackgroundValue this
  /\ GetInput this' = GetInput this
  /\ GetMaskImage this' = GetMaskImage this.
Proof.
  induction pieces as [|piece pieces IH]; intros threadId this; simpl; auto.
  destruct (IH (S threadId) (ThreadedGenerateData input piece threadId this))
    as (H1 & H2 & H3 & H4).
  simpl in *. auto.
Qed.

Ltac nat_cases :=
  repeat match goal with
         | |- context [(?a <=? ?b)%nat] => destruct (Nat.leb_spec a b)
         | |- context [(?a <? ?b)%nat] => destruct (Nat.ltb_spec a b)
         end.

(** After the threaded phase, slot [k] holds the maximum of piece [k]. *)
Lemma runThreads_slots input pieces : forall threadId this i,
  (threadId + length pieces <= length (m_MaxFrobeniusNorm this))%nat ->
  nth_error (m_MaxFrobeniusNorm (runThreads input pieces threadId this)) i
  = if (threadId <=? i)%nat && (i <? threadId + length pieces)%nat
    then option_map (scanRegion this input)
                    (nth_error pieces (i - threadId))
    else nth_error (m_MaxFrobeniusNorm this) i.
Proof.
  induction pieces as [|piece pieces IH]; intros threadId this i Hlen;
    simpl in *.
  - destruct (Nat.leb_spec threadId i), (Nat.ltb_spec i (threadId + 0));
      simpl; auto; lia.
  - rewrite IH by (simpl; rewrite SetElement_length; lia).
    cbn [ThreadedGenerateData SetMaxFrobeniusNorm m_MaxFrobeniusNorm].
    destruct (Nat.eq_dec threadId i) as [->|Hne].
    + rewrite SetElement_same by lia. rewrite Nat.sub_diag.
      nat_cases; cbn [andb nth_error option_map]; try lia; reflexivity.
    + rewrite SetElement_other by exact Hne.
      nat_cases; cbn [andb]; try lia; try reflexivity.
      replace (i - threadId)%nat with (S (i - S threadId)) by lia.
      cbn [nth_error].
      destruct (nth_error pieces (i - S threadId)); [|reflexivity].
      cbn [option_map]. f_equal; apply scanRegion_ext; reflexivity.
Qed.

Lemma Fill_SetSize_length v n : length (Fill v (SetSize n)) = n.
Proof. unfold Fill, SetSize. now rewrite !repeat_length. Qed.

(** Whether some voxel of a region is foreground can be decided by a
    walk. *)
Lemma foreground_in_region_dec this region :
  {idx | IsInside region idx = true /\ IsForeground this idx = true}
  + {forall idx, IsInside region idx = true -> IsForeground this idx = false}.
Proof.
  destruct (find (IsForeground this) (Walk region)) as [idx|] eqn:E.
  - left. exists idx. apply find_some in E. destruct E as [Hin Hfg].
    split; [now apply Walk_In | exact Hfg].
  - right. intros idx Hin. apply Walk_In in Hin.
    exact (find_none _ _ E idx Hin).
Qed.

Lemma MaskRegionIsContained_spec mask input :
  MaskRegionIsContained mask input = true
  <-> forall idx, IsInside (GetBufferedRegion mask) idx = true ->
                  IsInside (GetBufferedRegion input) idx = true.
Proof.
  unfold MaskRegionIsContained. rewrite forallb_forall. split.
  - intros Hall idx Hin. apply Hall. now apply Walk_In.
  - intros Hall idx Hin. apply Hall. now apply Walk_In.
Qed.

(** A run whose mask region is not contained in the image region fails
    on the precondition check. *)
Lemma Update_outside_domain split this input mask :
  GetInput this = Some input ->
  GetMaskImage this = Some mask ->
  MaskRegionIsContained mask input = false ->
  exists e, Update split this = Throw e /\ DomainError e = true.
Proof.
  intros Hinput Hmask Hout. unfold Update, VerifyPreconditions.
  rewrite Hinput, Hmask, Hout.
  exists MaskRegionIsNotContainedInImageRegion. split; reflexivity.
Qed.

(** What one run of the estimator leaves in the filter. *)
Lemma Update_spec split this input :
  covers split ->
  GetInput this = Some input ->
  VerifyPreconditions this input = OK tt ->
  exists this' m,
    Update split this = OK this'
    /\ GetAlpha this' = 0.5
    /\ GetBeta this' = 0.5
    /\ GetC this' = m_FrobeniusNormWeight this * m
    /\ IsMaximumFrobeniusNorm this input m
    /\ m_FrobeniusNormWeight this' = m_FrobeniusNormWeight this
    /\ m_BackgroundValue this' = m_BackgroundValue this
    /\ GetInput this' = GetInput this
    /\ GetMaskImage this' = GetMaskImage this.
Proof.
  intros Hcov Hinput Hpre. unfold Update. rewrite Hinput, Hpre.
  unfold OK at 1. cbv beta iota.
  set (pieces := split (GetBufferedRegion input)).
  set (this1 := BeforeThreadedGenerateData (length pieces) this).
  set (this2 := runThreads input pieces 0 this1).
  set (acc := m_MaxFrobeniusNorm this2).
  destruct (runThreads_frame input pieces 0 this1) as (Hw & Hb & Hi & Hm).
  fold this2 in Hw, Hb, Hi, Hm.
  exists (AfterThreadedGenerateData this2), (fold_left Rmax acc 0).
  split; [reflexivity|]. split; [reflexivity|]. split; [reflexivity|].
  split; [unfold GetC; simpl; now rewrite Hw|].
  split; [|simpl; rewrite Hw, Hb, Hi, Hm; unfold this1; simpl; auto].
  (* the slots of the accumulator array *)
  assert (Hslot : forall i,
             nth_error acc i
             = option_map (scanRegion this input) (nth_error pieces i)).
  { intros i. unfold acc, this2. rewrite runThreads_slots.
    - rewrite Nat.sub_0_r.
      destruct (Nat.ltb_spec i (0 + length pieces)) as [Hlt|Hge]; simpl.
      + destruct (nth_error pieces i); simpl; [|reflexivity].
        f_equal; apply scanRegion_ext; reflexivity.
      + rewrite (proj2 (nth_error_None pieces i)) by lia. simpl.
        apply nth_error_None. rewrite Fill_SetSize_length. lia.
    - simpl. rewrite Fill_SetSize_length. lia. }
  assert (Hpiece : forall piece, In piece pieces ->
                                 In (scanRegion this input piece) acc).
  { intros piece Hin. apply In_nth_error in Hin. destruct Hin as [i Hi'].
    apply nth_error_In with (n := i). now rewrite Hslot, Hi'. }
  assert (Hacc : forall x, In x acc ->
                           exists piece, In piece pieces
                                         /\ x = scanRegion this input piece).
  { intros x Hin. apply In_nth_error in Hin. destruct Hin as [i Hi'].
    rewrite Hslot in Hi'. destruct (nth_error pieces i) as [piece|] eqn:E;
      [|discriminate].
    exists piece. split; [eapply nth_error_In; eauto|].
    simpl in Hi'. congruence. }
  destruct (merge_spec acc) as (Hge & Hall & Hex).
  set (m := fold_left Rmax acc 0) in *.
  assert (Hbound : forall idx, Participates this input idx ->
                     CalculateFrobeniusNorm (GetPixel input idx) <= m).
  { intros idx [Hin Hfg]. apply Hcov in Hin.
    destruct Hin as (piece & Hp & Hin).
    destruct (scanRegion_spec this input piece) as (_ & Hle & _).
    eapply Rle_trans; [apply Hle; eassumption|]. apply Hall, Hpiece, Hp. }
  split; [exact Hbound|].
  assert (Hzero : m = 0 ->
            (exists idx, Participates this input idx
                         /\ CalculateFrobeniusNorm (GetPixel input idx) = m)
            \/ (m = 0 /\ forall idx, ~ Participates this input idx)).
  { intros Hm0.
    destruct (foreground_in_region_dec this (GetBufferedRegion input))
      as [[idx [Hin Hfg]] | Hnone].
    - left. exists idx. split; [split; assumption|].
      pose proof (Hbound idx (conj Hin Hfg)).
      pose proof (CalculateFrobeniusNorm_nonneg (GetPixel input idx)). lra.
    - right. split; [exact Hm0|]. intros idx [Hin Hfg].
      rewrite (Hnone idx Hin) in Hfg. discriminate. }
  destruct Hex as [Hm0 | Hin]; [now apply Hzero|].
  destruct (Hacc m Hin) as (piece & Hp & Hscan).
  destruct (scanRegion_spec this input piece) as (_ & _ & Hatt).
  destruct Hatt as [H0 | (idx & Hin' & Hfg & Hv)].
  - apply Hzero. congruence.
  - left. exists idx. split; [|congruence].
    split; [|exact Hfg]. apply Hcov. exists piece; auto.
Qed.

Lemma IsForeground_without_mask this idx :
  GetMaskImage this = None -> IsForeground this idx = true.
Proof. intros Hm; unfold IsForeground; now rewrite Hm. Qed.

Lemma IsForeground_with_mask this mask idx :
  GetMaskImage this = Some mask ->
  (IsForeground this idx = true
   <-> IsInside (GetBufferedRegion mask) idx = true
       /\ GetPixel mask idx <> m_BackgroundValue this).
Proof.
  intros Hm; unfold IsForeground; rewrite Hm.
  rewrite andb_true_iff, negb_true_iff, Z.eqb_neq. tauto.
Qed.

Lemma VerifyPreconditions_passes this input :
  (forall mask, GetMaskImage this = Some mask ->
                MaskRegionIsContained mask input = true) ->
  VerifyPreconditions this input = OK tt.
Proof.
  intros Hwithin. unfold VerifyPreconditions.
  destruct (GetMaskImage this) as [mask|]; [|reflexivity].
  now rewrite (Hwithin mask eq_refl).
Qed.

(** C1: a run of the estimator on an eigenvalue field, for any weight,
    background label and mask the filter is configured with, the region of
    the mask being contained in the region of the field, leaves alpha = 0.5
    and beta = 0.5 whatever the data, and c = weight * m, where m is the
    maximum of sqrt(l1^2 + l2^2 + l3^2) over the foreground voxels of the
    field: every voxel when no mask is set, and with a mask exactly the
    voxels it covers whose label differs from the background value.  (A
    mask whose region is not contained in the field's is rejected before
    the scan, see [Update_outside_domain].) *)
Theorem Update_alpha_beta_fixed_c_weighted_maximum
    (split : Splitter) (this : Self) (input : InputImageType) :
  covers split ->
  (forall mask, GetMaskImage this = Some mask ->
                MaskRegionIsContained mask input = true) ->
  exists this' m,
    Update split (SetInput input this) = OK this'
    /\ GetAlpha this' = 0.5
    /\ GetBeta this' = 0.5
    /\ GetC this' = m_FrobeniusNormWeight this * m
    /\ IsMaximumFrobeniusNorm this input m
    /\ (GetMaskImage this = None ->
        forall idx, IsForeground this idx = true)
    /\ (forall mask, GetMaskImage this = Some mask ->
        forall idx, IsForeground this idx = true
                    <-> IsInside (GetBufferedRegion mask) idx = true
                        /\ GetPixel mask idx <> m_BackgroundValue this).
Proof.
  intros Hcov Hwithin.
  destruct (Update_spec split (SetInput input this) input Hcov eq_refl
              (VerifyPreconditions_passes (SetInput input this) input
                 Hwithin))
    as (this' & m & Hrun & Ha & Hb & Hc & Hmax & _).
  exists this', m.
  split; [exact Hrun|]. split; [exact Ha|]. split; [exact Hb|].
  split; [exact Hc|]. split; [exact Hmax|]. split.
  - intros Hm idx. now apply IsForeground_without_mask.
  - intros mask Hm idx. now apply IsForeground_with_mask.
Qed.

(** C9: in a run of the estimator whose mask, if there is one, has its
    region contained in the region of the field: when no voxel is
    foreground, or every foreground voxel has Frobenius norm 0, the run
    completes without an exception and leaves c = 0. *)
Theorem Update_degenerate_c_zero
    (split : Splitter) (this : Self) (input : InputImageType) :
  covers split ->
  (forall mask, GetMaskImage this = Some mask ->
                MaskRegionIsContained mask input = true) ->
  (forall idx, ~ Participates this input idx)
  \/ (forall idx, Participates this input idx ->
                  CalculateFrobeniusNorm (GetPixel input idx) = 0) ->
  exists this',
    Update split (SetInput input this) = OK this' /\ GetC this' = 0.
Proof.
  intros Hcov Hwithin Hdeg.
  destruct (Update_spec split (SetInput input this) input Hcov eq_refl
              (VerifyPreconditions_passes (SetInput input this) input
                 Hwithin))
    as (this' & m & Hrun & _ & _ & Hc & [Hbound Hatt] & _).
  exists this'. split; [exact Hrun|]. rewrite Hc.
  assert (Hm : m = 0).
  { destruct Hatt as [(idx & Hp & Hv) | [Hm0 _]]; [|exact Hm0].
    destruct Hdeg as [Hnone | Hzero].
    - destruct (Hnone idx Hp).
    - rewrite <- Hv. now apply Hzero. }
  rewrite Hm. apply Rmult_0_r.
Qed.

(** C10: on a freshly constructed estimator, and after any configuration
    calls made before the first run, [GetAlpha], [GetBeta] and [GetC] all
    return 0.5. *)
Theorem New_getters_default_to_half
    (defaultBackground : MaskPixelType) (calls : list Setter) :
  let this := configure calls (New defaultBackground) in
  GetAlpha this = 0.5 /\ GetBeta this = 0.5 /\ GetC this = 0.5.
Proof.
  unfold configure.
  assert (Hinv : forall this,
             GetAlpha this = 0.5 /\ GetBeta this = 0.5 /\ GetC this = 0.5 ->
             let this' := fold_left call calls this in
             GetAlpha this' = 0.5 /\ GetBeta this' = 0.5 /\ GetC this' = 0.5).
  { induction calls as [|s calls IH]; intros this Hthis; simpl; [exact Hthis|].
    apply IH. destruct s; exact Hthis. }
  apply Hinv. repeat split.
Qed.

End DescoteauxFacts.

Module DescoteauxTestFacts.
Import Array Image ImageFacts Descoteaux DescoteauxFacts DescoteauxTest.

Lemma FloatAlmostEqual_same x y maxUlps :
  x = y -> FloatAlmostEqual x y maxUlps 0.000001 = true.
Proof.
  intros ->. unfold FloatAlmostEqual.
  destruct (Rle_dec (Rabs (y - y)) 0.000001) as [_|Hn]; [reflexivity|].
  exfalso; apply Hn. rewrite Rminus_diag, Rabs_R0. lra.
Qed.

Lemma norm_simpleEigenPixel : CalculateFrobeniusNorm simpleEigenPixel = sqrt 3.
Proof. unfold CalculateFrobeniusNorm, simpleEigenPixel. f_equal. lra. Qed.

Lemma norm_newEigenPixel : CalculateFrobeniusNorm newEigenPixel = sqrt 3 * 3.
Proof.
  unfold CalculateFrobeniusNorm, newEigenPixel.
  replace (3 * 3 + 3 * 3 + 3 * 3) with (3 * (3 * 3)) by lra.
  rewrite sqrt_mult by lra. now rewrite sqrt_square by lra.
Qed.

Lemma Participates_without_mask this input idx :
  GetMaskImage this = None ->
  (Participates this input idx
   <-> IsInside (GetBufferedRegion input) idx = true).
Proof.
  intros Hm. unfold Participates.
  rewrite IsForeground_without_mask by exact Hm. tauto.
Qed.

Lemma Participates_with_mask this input m idx :
  GetMaskImage this = Some m ->
  (Participates this input idx
   <-> IsInside (GetBufferedRegion input) idx = true
       /\ IsInside (GetBufferedRegion m) idx = true
       /\ GetPixel m idx <> m_BackgroundValue this).
Proof.
  intros Hm. unfold Participates.
  now rewrite (IsForeground_with_mask this m idx Hm).
Qed.

(** A run over a field whose participating voxels all have the same
    norm. *)
Lemma Update_uniform split this input n :
  covers split ->
  GetInput this = Some input ->
  VerifyPreconditions this input = OK tt ->
  (exists idx, Participates this input idx) ->
  (forall idx, Participates this input idx ->
               CalculateFrobeniusNorm (GetPixel input idx) = n) ->
  exists this',
    Update split this = OK this'
    /\ GetAlpha this' = 0.5
    /\ GetBeta this' = 0.5
    /\ GetC this' = m_FrobeniusNormWeight this * n
    /\ m_FrobeniusNormWeight this' = m_FrobeniusNormWeight this
    /\ m_BackgroundValue this' = m_BackgroundValue this
    /\ GetInput this' = GetInput this
    /\ GetMaskImage this' = GetMaskImage this.
Proof.
  intros Hcov Hinput Hpre [idx0 Hidx0] Hall.
  destruct (Update_spec split this input Hcov Hinput Hpre)
    as (this' & m & Hrun & Ha & Hb & Hc & [Hbound Hatt] & Hframe).
  exists this'. split; [exact Hrun|]. split; [exact Ha|]. split; [exact Hb|].
  split; [|exact Hframe].
  rewrite Hc. f_equal.
  destruct Hatt as [(idx & Hp & Hv) | [_ Hnone]].
  - rewrite <- Hv. now apply Hall.
  - destruct (Hnone idx0 Hidx0).
Qed.

Lemma mask_pixel idx :
  GetPixel mask idx
  = if IsInside maskRegion idx then foregroundValue else backgroundValue.
Proof. unfold mask. now rewrite SetRegion_pixel. Qed.

Lemma image2_pixel idx :
  GetPixel image2 idx
  = if IsInside maskRegion idx then newEigenPixel else simpleEigenPixel.
Proof. unfold image2. now rewrite SetRegion_pixel. Qed.

Lemma maskRegion_in_region idx :
  IsInside maskRegion idx = true -> IsInside region idx = true.
Proof.
  destruct idx as [[x y] z]. unfold IsInside, within, maskRegion, region.
  cbn [GetIndex GetSize].
  rewrite !andb_true_iff, !Z.leb_le, !Z.ltb_lt. lia.
Qed.

Lemma mask_region : GetBufferedRegion mask = region.
Proof. unfold mask. now rewrite SetRegion_region. Qed.

Lemma image2_region : GetBufferedRegion image2 = region.
Proof. unfold image2. now rewrite SetRegion_region. Qed.

(** The uniform field without a mask. *)
Lemma run_image_without_mask split this :
  covers split ->
  GetInput this = Some image -> GetMaskImage this = None ->
  exists this',
    Update split this = OK this'
    /\ GetAlpha this' = 0.5 /\ GetBeta this' = 0.5
    /\ GetC this' = m_FrobeniusNormWeight this * sqrt 3
    /\ m_FrobeniusNormWeight this' = m_FrobeniusNormWeight this
    /\ m_BackgroundValue this' = m_BackgroundValue this
    /\ GetInput this' = GetInput this
    /\ GetMaskImage this' = GetMaskImage this.
Proof.
  intros Hcov Hinput Hmask.
  apply (Update_uniform split this image (sqrt 3)); try assumption.
  - unfold VerifyPreconditions. now rewrite Hmask.
  - exists (0, 0, 0)%Z. now apply Participates_without_mask.
  - intros idx _. exact norm_simpleEigenPixel.
Qed.

(** The two-valued field under [mask]: with label 2 as background the
    shell of (-1,-1,-1) voxels takes part. *)
Lemma run_image2_shell split this :
  covers split ->
  GetInput this = Some image2 -> GetMaskImage this = Some mask ->
  m_BackgroundValue this = foregroundValue ->
  exists this',
    Update split this = OK this'
    /\ GetAlpha this' = 0.5 /\ GetBeta this' = 0.5
    /\ GetC this' = m_FrobeniusNormWeight this * sqrt 3
    /\ m_FrobeniusNormWeight this' = m_FrobeniusNormWeight this
    /\ m_BackgroundValue this' = m_BackgroundValue this
    /\ GetInput this' = GetInput this
    /\ GetMaskImage this' = GetMaskImage this.
Proof.
  intros Hcov Hinput Hmask Hbg.
  apply (Update_uniform split this image2 (sqrt 3)); try assumption.
  - apply VerifyPreconditions_passes. intros mask' Hmask'.
    assert (mask' = mask) by congruence. subst mask'.
    apply MaskRegionIsContained_spec.
    now rewrite image2_region, mask_region.
  - exists (0, 0, 0)%Z. apply (Participates_with_mask _ _ mask); [assumption|].
    rewrite image2_region, mask_region, mask_pixel, Hbg.
    repeat split; discriminate.
  - intros idx Hp. apply (Participates_with_mask _ _ mask) in Hp;
      [|assumption].
    destruct Hp as (_ & _ & Hne). rewrite mask_pixel, Hbg in Hne.
    rewrite image2_pixel.
    destruct (IsInside maskRegion idx); [congruence|].
    exact norm_simpleEigenPixel.
Qed.

(** ... and with label 1 as background the block of (3,3,3) voxels. *)
Lemma run_image2_block split this :
  covers split ->
  GetInput this = Some image2 -> GetMaskImage this = Some mask ->
  m_BackgroundValue this = backgroundValue ->
  exists this',
    Update split this = OK this'
    /\ GetAlpha this' = 0.5 /\ GetBeta this' = 0.5
    /\ GetC this' = m_FrobeniusNormWeight this * (sqrt 3 * 3)
    /\ m_FrobeniusNormWeight this' = m_FrobeniusNormWeight this
    /\ m_BackgroundValue this' = m_BackgroundValue this
    /\ GetInput this' = GetInput this
    /\ GetMaskImage this' = GetMaskImage this.
Proof.
  intros Hcov Hinput Hmask Hbg.
  apply (Update_uniform split this image2 (sqrt 3 * 3)); try assumption.
  - apply VerifyPreconditions_passes. intros mask' Hmask'.
    assert (mask' = mask) by congruence. subst mask'.
    apply MaskRegionIsContained_spec.
    now rewrite image2_region, mask_region.
  - exists (2, 2, 2)%Z. apply (Participates_with_mask _ _ mask); [assumption|].
    rewrite image2_region, mask_region, mask_pixel, Hbg.
    repeat split; discriminate.
  - intros idx Hp. apply (Participates_with_mask _ _ mask) in Hp;
      [|assumption].
    destruct Hp as (_ & _ & Hne). rewrite mask_pixel, Hbg in Hne.
    rewrite image2_pixel.
    destruct (IsInside maskRegion idx); [|congruence].
    exact norm_newEigenPixel.
Qed.

(** The uniform field under a mask defined on a sub-region only. *)
Lemma run_image_mask2 split this :
  covers split ->
  GetInput this = Some image -> GetMaskImage this = Some mask2 ->
  m_BackgroundValue this = backgroundValue ->
  exists this',
    Update split this = OK this'
    /\ GetAlpha this' = 0.5 /\ GetBeta this' = 0.5
    /\ GetC this' = m_FrobeniusNormWeight this * sqrt 3
    /\ m_FrobeniusNormWeight this' = m_FrobeniusNormWeight this
    /\ m_BackgroundValue this' = m_BackgroundValue this
    /\ GetInput this' = GetInput this
    /\ GetMaskImage this' = GetMaskImage this.
Proof.
  intros Hcov Hinput Hmask Hbg.
  apply (Update_uniform split this image (sqrt 3)); try assumption.
  - apply VerifyPreconditions_passes. intros mask' Hmask'.
    assert (mask' = mask2) by congruence. subst mask'.
    apply MaskRegionIsContained_spec. exact maskRegion_in_region.
  - exists (2, 2, 2)%Z. apply (Participates_with_mask _ _ mask2); [assumption|].
    rewrite Hbg. repeat split; discriminate.
  - intros idx _. exact norm_simpleEigenPixel.
Qed.

Lemma mask2_within_image mask :
  GetMaskImage (SetMaskImage mask2 (New 0%Z)) = Some mask ->
  MaskRegionIsContained mask image = true.
Proof.
  intros Hmask. assert (mask = mask2) by (simpl in Hmask; congruence).
  subst mask. apply MaskRegionIsContained_spec. exact maskRegion_in_region.
Defined.

(** The uniform field under [mask2], a mask on a sub-region, with the
    default weight. *)
Lemma Update_alpha_beta_fixed_c_weighted_maximum_witness :
  exists this' m,
    Update SingleThread (SetInput image (SetMaskImage mask2 (New 0%Z)))
    = OK this'
    /\ GetAlpha this' = 0.5
    /\ GetBeta this' = 0.5
    /\ GetC this' = 0.5 * m
    /\ IsMaximumFrobeniusNorm (SetMaskImage mask2 (New 0%Z)) image m.
Proof.
  destruct (Update_alpha_beta_fixed_c_weighted_maximum
              SingleThread (SetMaskImage mask2 (New 0%Z)) image
              SingleThread_covers mask2_within_image)
    as (this' & m & Hrun & Ha & Hb & Hc & Hmax & _).
  exists this', m. repeat (split; [assumption|]). exact Hmax.
Defined.

(** [mask2] holds the label 2 everywhere: with 2 as background label no
    voxel is foreground. *)
Lemma Update_degenerate_c_zero_witness :
  exists this',
    Update SingleThread
           (SetInput image
              (SetBackgroundValue foregroundValue
                 (SetMaskImage mask2 (New 0%Z)))) = OK this'
    /\ GetC this' = 0.
Proof.
  apply (Update_degenerate_c_zero
           SingleThread
           (SetBackgroundValue foregroundValue (SetMaskImage mask2 (New 0%Z)))
           image SingleThread_covers mask2_within_image).
  left. intros idx [_ Hfg]. unfold IsForeground in Hfg. simpl in Hfg.
  rewrite andb_false_r in Hfg. discriminate Hfg.
Defined.

Ltac settle_fields H :=
  cbn [m_FrobeniusNormWeight m_BackgroundValue GetInput GetMaskImage
       SetInput SetMaskImage SetBackgroundValue SetFrobeniusNormWeight New]
    in H.

Ltac expect_true Ha Hb Hc :=
  unfold OK; cbv beta iota;
  rewrite (FloatAlmostEqual_same _ _ 6 Ha);
  rewrite (FloatAlmostEqual_same _ _ 6 Hb);
  rewrite FloatAlmostEqual_same by (rewrite Hc; lra).

(** X18: the estimator as modelled passes the repository's test driver:
    every expectation of the test holds and the driver returns
    [EXIT_SUCCESS], for any sound split of the work among threads and any
    default of the background value. *)
Theorem test_driver_succeeds split defaultBackground :
  covers split ->
  itkDescoteauxEigenToScalarParameterEstimationImageFilterTest
    split defaultBackground = EXIT_SUCCESS.
Proof.
  intros Hcov.
  unfold itkDescoteauxEigenToScalarParameterEstimationImageFilterTest.
  cbv zeta.
  rewrite !FloatAlmostEqual_same by reflexivity.
  (* uniform field, weight 0.5 *)
  destruct (run_image_without_mask
              split (SetInput image (New defaultBackground))
              Hcov eq_refl eq_refl)
    as (e1 & Hrun1 & Ha1 & Hb1 & Hc1 & Hw1 & _ & Hi1 & Hm1).
  settle_fields Hc1; settle_fields Hw1; settle_fields Hi1;
    settle_fields Hm1.
  rewrite Hrun1. expect_true Ha1 Hb1 Hc1.
  (* uniform field, weight 0.25 *)
  destruct (run_image_without_mask
              split (SetFrobeniusNormWeight 0.25 e1) Hcov Hi1 Hm1)
    as (e2 & Hrun2 & Ha2 & Hb2 & Hc2 & _).
  settle_fields Hc2.
  rewrite Hrun2. expect_true Ha2 Hb2 Hc2.
  (* two-valued field, label 2 is background *)
  destruct (run_image2_shell
              split
              (SetFrobeniusNormWeight 0.5
                 (SetBackgroundValue foregroundValue
                    (SetMaskImage mask (SetInput image2 e2))))
              Hcov eq_refl eq_refl eq_refl)
    as (e3 & Hrun3 & Ha3 & Hb3 & Hc3 & Hw3 & _).
  settle_fields Hc3; settle_fields Hw3.
  rewrite Hrun3. expect_true Ha3 Hb3 Hc3.
  (* two-valued field, label 1 is background *)
  destruct (run_image2_block
              split
              (SetBackgroundValue backgroundValue
                 (SetMaskImage mask (SetInput image2 e3)))
              Hcov eq_refl eq_refl eq_refl)
    as (e4 & Hrun4 & Ha4 & Hb4 & Hc4 & Hw4 & _).
  settle_fields Hc4; settle_fields Hw4. rewrite Hw3 in Hc4, Hw4.
  rewrite Hrun4. expect_true Ha4 Hb4 Hc4.
  (* uniform field, mask on a sub-region *)
  destruct (run_image_mask2
              split
              (SetBackgroundValue backgroundValue
                 (SetMaskImage mask2 (SetInput image e4)))
              Hcov eq_refl eq_refl eq_refl)
    as (e5 & Hrun5 & Ha5 & Hb5 & Hc5 & _).
  settle_fields Hc5. rewrite Hw4 in Hc5.
  rewrite Hrun5. expect_true Ha5 Hb5 Hc5.
  reflexivity.
Qed.

End DescoteauxTestFacts.

Module MultiScaleFacts.
Import Array Image MultiScale.

Ltac run_method :=
  unfold bind, get, modify, ret, throw, lift, OK, Throw; cbn beta iota.

Ltac no_throw :=
  run_method; let E := fresh in intros E; discriminate E.

Lemma MaximumAbsoluteValue_cases A B :
  (MaximumAbsoluteValue A B = A \/ MaximumAbsoluteValue A B = B)
  /\ Rabs (MaximumAbsoluteValue A B) = Rmax (Rabs A) (Rabs B)
  /\ (Rabs A = Rabs B -> MaximumAbsoluteValue A B = A).
Proof.
  unfold MaximumAbsoluteValue, Rmax.
  destruct (Rge_dec (Rabs A) (Rabs B)) as [Hge|Hlt],
           (Rle_dec (Rabs A) (Rabs B)) as [Hle|Hgt];
    repeat split; auto; try lra.
Qed.

Lemma MaximumAbsoluteValue_same A : MaximumAbsoluteValue A A = A.
Proof. unfold MaximumAbsoluteValue. now destruct (Rge_dec _ _). Qed.

Section Runs.
Context {collaborators : Collaborators}.

Lemma HessianFilter_GenerateData_positive normalize sigma input :
  0 < sigma ->
  HessianFilter_GenerateData normalize sigma input
  = OK (SecondDerivatives normalize sigma input).
Proof.
  intros Hpos. unfold HessianFilter_GenerateData.
  destruct (Rle_dec sigma 0) as [Hle|_]; [lra | reflexivity].
Qed.

Lemma HessianFilter_GenerateData_non_positive normalize sigma input :
  sigma <= 0 ->
  HessianFilter_GenerateData normalize sigma input
  = Throw (SigmaMustBeGreaterThanZero sigma).
Proof.
  intros Hle. unfold HessianFilter_GenerateData.
  destruct (Rle_dec sigma 0) as [_|Hgt]; [reflexivity | lra].
Qed.

(** [generateResponseAtScale] either throws or returns the address of the
    functor filter's output object, which then holds data. *)
Lemma generateResponseAtScale_returns scaleLevel (this this1 : Self) p :
  generateResponseAtScale scaleLevel this = (OK p, this1) ->
  p = EigenToScalarOutput
  /\ exists response, deref this1 EigenToScalarOutput = Some response.
Proof.
  unfold generateResponseAtScale, SetSigma, EigenToScalarImageFilter_Update.
  run_method.
  destruct (GetElement scaleLevel (m_SigmaArray this)) as [sigma|];
    [|no_throw].
  run_method.
  destruct (m_EigenToScalarImageFilter this) as [f|]; [|no_throw].
  run_method. cbn [withHessianFilter m_HessianFilter m_EigenAnalysisFilter
                   GetInput GetSigma GetNormalizeAcrossScale].
  destruct (HessianFilter_GenerateData _ _ _) as [e|hessian]; [no_throw|].
  cbn beta iota.
  destruct (EigenAnalysisFilter_GenerateData _ _ _) as [e|eigen];
    [no_throw|].
  cbn beta iota.
  destruct (EigenToScalar_GenerateData f eigen) as [e|response];
    [no_throw|].
  cbn beta iota. intros E. injection E as <- <-.
  split; [reflexivity|]. exists response. reflexivity.
Qed.

(** C6: when no functor filter is configured, or the sigma array has
    fewer than one entry, [GenerateData] throws a configuration error at
    once: the object is left exactly as it was, so no filter has run and
    no output has been grafted. *)
Theorem GenerateData_configuration_error (this : Self) :
  m_EigenToScalarImageFilter this = None
  \/ (Array.GetSize (m_SigmaArray this) < 1)%nat ->
  exists e,
    ConfigurationError e = true
    /\ GenerateData this = (Throw e, this)
    /\ Update this = Throw e.
Proof.
  intros Hpre. unfold Update, GenerateData. run_method.
  destruct (m_EigenToScalarImageFilter this) as [f|].
  - destruct Hpre as [Hnone | Hsize]; [discriminate|].
    destruct (Nat.ltb_spec (Array.GetSize (m_SigmaArray this)) 1) as [_|Hge];
      [|lia].
    exists (SigmaArrayMustHaveAtLeastOneSigmaValue
              (Array.GetSize (m_SigmaArray this))).
    split; [reflexivity|]. split; reflexivity.
  - exists EigenToScalarImageFilterIsNotPresent.
    split; [reflexivity|]. split; reflexivity.
Qed.

(** C4: with a schedule of exactly one scale, a run of the aggregator
    yields what the single-scale pipeline yields at that scale (the same
    image, or the same exception), and the maximum-absolute-value filter is
    not executed. *)
Theorem GenerateData_single_scale (this : Self)
    (f : EigenToScalarImageFilterType) (sigma : R) :
  m_EigenToScalarImageFilter this = Some f ->
  m_SigmaArray this = [sigma] ->
  Update this
  = andThen (SingleScalePipeline f (GetInput this) sigma)
            (fun response => OK (Some response))
  /\ filter isMaximumAbsoluteValue (executed (snd (GenerateData this)))
     = filter isMaximumAbsoluteValue (executed this).
Proof.
  intros Hf Hsigma.
  unfold Update, GenerateData, SingleScalePipeline, declaredPolicy,
    TensorField, Decompose, Measure, andThen, ConvertType,
    generateResponseAtScale, EigenToScalarImageFilter_Update,
    SetNormalizeAcrossScale, SetDimension, OrderEigenValuesBy, SetSigma,
    GraftOutput.
  run_method. rewrite Hf, Hsigma. cbn beta iota.
  change (Array.GetSize [sigma] <? 1)%nat with false. cbn beta iota.
  destruct (GetEigenValueOrder f); run_method; cbn; rewrite ?Hf, ?Hsigma;
    cbn;
    try (split; reflexivity);
    (destruct (HessianFilter_GenerateData true sigma (GetInput this))
       as [e|hessian]; cbn; [split; reflexivity|]);
    (destruct (EigenAnalysisFilter_GenerateData ImageDimension _ hessian)
       as [e|eigen]; cbn; [split; reflexivity|]);
    (destruct (EigenToScalar_GenerateData f eigen) as [e|response]; cbn;
     split; reflexivity).
Qed.

Lemma ConvertType_run (f : EigenToScalarImageFilterType) (this : Self) :
  ConvertType (GetEigenValueOrder f) this = (declaredPolicy f, this).
Proof.
  unfold ConvertType, declaredPolicy.
  destruct (GetEigenValueOrder f); reflexivity.
Qed.

(** A successful [generateResponseAtScale]: the functor filter's output
    object holds the response computed with the current settings at the
    sigma of the level; the other data object and the configuration are
    untouched. *)
Lemma generateResponseAtScale_success (this : Self)
    (f : EigenToScalarImageFilterType) (scaleLevel : nat) (sigma : R)
    (response : OutputImageType) :
  m_EigenToScalarImageFilter this = Some f ->
  GetElement scaleLevel (m_SigmaArray this) = Some sigma ->
  andThen (HessianFilter_GenerateData
             (GetNormalizeAcrossScale (m_HessianFilter this)) sigma
             (GetInput this))
          (fun tensor =>
             andThen (EigenAnalysisFilter_GenerateData
                        (GetDimension (m_EigenAnalysisFilter this))
                        (GetOrderEigenValuesBy (m_EigenAnalysisFilter this))
                        tensor)
                     (EigenToScalar_GenerateData f)) = OK response ->
  exists this1,
    generateResponseAtScale scaleLevel this = (OK EigenToScalarOutput, this1)
    /\ deref this1 EigenToScalarOutput = Some response
    /\ deref this1 MaximumAbsoluteValueOutput
       = deref this MaximumAbsoluteValueOutput
    /\ m_SigmaArray this1 = m_SigmaArray this
    /\ m_EigenToScalarImageFilter this1 = m_EigenToScalarImageFilter this
    /\ GetInput this1 = GetInput this
    /\ m_EigenAnalysisFilter this1 = m_EigenAnalysisFilter this
    /\ GetNormalizeAcrossScale (m_HessianFilter this1)
       = GetNormalizeAcrossScale (m_HessianFilter this).
Proof.
  intros Hf Hsigma.
  unfold generateResponseAtScale, SetSigma, EigenToScalarImageFilter_Update,
    andThen.
  run_method. rewrite Hf, Hsigma. cbn.
  destruct (HessianFilter_GenerateData _ sigma (GetInput this))
    as [e|tensor]; [discriminate|].
  cbn.
  destruct (EigenAnalysisFilter_GenerateData _ _ tensor) as [e|eigen];
    [discriminate|].
  cbn. intros ->. cbn. eexists. repeat split. exact Hf.
Qed.

(** C7: a call of the tensor-field stage through
    [generateResponseAtScale] with a non-positive sigma fails with an
    InvalidParameter error, before any filter has completed; with a
    positive sigma the stage succeeds and the Hessian filter's execution
    is recorded.  Either way the input image of the aggregator is what it
    was. *)
Theorem generateResponseAtScale_rejects_non_positive_sigma (this : Self)
    (f : EigenToScalarImageFilterType) (scaleLevel : nat) (sigma : R) :
  m_EigenToScalarImageFilter this = Some f ->
  GetElement scaleLevel (m_SigmaArray this) = Some sigma ->
  let run := generateResponseAtScale scaleLevel this in
  GetInput (snd run) = GetInput this
  /\ (sigma <= 0 ->
      exists e,
        fst run = Throw e
        /\ InvalidParameter e = true
        /\ executed (snd run) = executed this)
  /\ (0 < sigma ->
      (exists field,
          HessianFilter_GenerateData
            (GetNormalizeAcrossScale (m_HessianFilter this)) sigma
            (GetInput this) = OK field)
      /\ In (RanHessianFilter sigma) (executed (snd run))).
Proof.
  intros Hf Hsigma.
  unfold generateResponseAtScale, SetSigma, EigenToScalarImageFilter_Update.
  run_method. rewrite Hf, Hsigma. cbn.
  unfold HessianFilter_GenerateData.
  destruct (Rle_dec sigma 0) as [Hle|Hgt]; cbn.
  - split; [reflexivity|]. split; [|intros Hpos; lra].
    intros _. exists (SigmaMustBeGreaterThanZero sigma). repeat split.
  - destruct (EigenAnalysisFilter_GenerateData _ _ _) as [e|eigen]; cbn.
    + split; [reflexivity|]. split; [intros Hle; lra|].
      intros _. split; [eexists; reflexivity | now left].
    + destruct (EigenToScalar_GenerateData f eigen) as [e|response]; cbn.
      * split; [reflexivity|]. split; [intros Hle; lra|].
        intros _. split; [eexists; reflexivity | right; now left].
      * split; [reflexivity|]. split; [intros Hle; lra|].
        intros _. split; [eexists; reflexivity | right; right; now left].
Qed.

(** The sigma of the level goes to the Hessian filter as it is: the
    aggregator has no check of its own on the value, and an exception of
    the Hessian filter is passed on by [generateResponseAtScale] as it
    is. *)
Lemma generateResponseAtScale_forwards_sigma (this : Self)
    (f : EigenToScalarImageFilterType) (scaleLevel : nat) (sigma : R)
    (e : ExceptionObject) :
  m_EigenToScalarImageFilter this = Some f ->
  GetElement scaleLevel (m_SigmaArray this) = Some sigma ->
  HessianFilter_GenerateData
    (GetNormalizeAcrossScale (m_HessianFilter this)) sigma (GetInput this)
  = Throw e ->
  fst (generateResponseAtScale scaleLevel this) = Throw e.
Proof.
  intros Hf Hsigma.
  unfold generateResponseAtScale, SetSigma, EigenToScalarImageFilter_Update.
  run_method. rewrite Hf, Hsigma. cbn. now intros ->.
Qed.

(** X12: the first turn of the loop hands the maximum-absolute-value
    filter the same data object twice: the pointer kept from the first
    scale and the pointer returned for the second scale both address the
    functor filter's output, which by then holds the second response.  A
    run over exactly two scales at which the pipeline succeeds therefore
    returns, at every voxel, the response of the second scale, whatever
    the response of the first scale was. *)
Theorem GenerateData_two_scales (this : Self)
    (f : EigenToScalarImageFilterType) (sigma0 sigma1 : R)
    (response0 response1 : OutputImageType) :
  m_EigenToScalarImageFilter this = Some f ->
  m_SigmaArray this = [sigma0; sigma1] ->
  SingleScalePipeline f (GetInput this) sigma0 = OK response0 ->
  SingleScalePipeline f (GetInput this) sigma1 = OK response1 ->
  exists output,
    Update this = OK (Some output)
    /\ forall idx, GetPixel output idx = GetPixel response1 idx.
Proof.
  intros Hf Hsigma Hr0 Hr1.
  unfold SingleScalePipeline, TensorField, Decompose, Measure in Hr0, Hr1.
  destruct (declaredPolicy f) as [e|policy] eqn:Hpolicy; [discriminate|].
  cbn [andThen] in Hr0, Hr1.
  unfold Update, GenerateData, SetNormalizeAcrossScale,
    SetDimension, OrderEigenValuesBy.
  run_method. rewrite Hf, Hsigma.
  change (Array.GetSize [sigma0; sigma1] <? 1)%nat with false.
  cbn beta iota.
  rewrite ConvertType_run, Hpolicy. cbn beta iota.
  (* first scale *)
  match goal with
  | |- context [generateResponseAtScale 0 ?st] =>
      destruct (generateResponseAtScale_success st f 0 sigma0 response0)
        as (this1 & Hrun0 & _ & _ & Hs1 & Hf1 & Hi1 & Ha1 & Hn1);
      [exact Hf | cbn; now rewrite Hsigma | exact Hr0 |];
      rewrite Hrun0
  end.
  cbn beta iota. cbn [Array.GetSize length Nat.sub remainingScales].
  unfold combineWithScale. run_method.
  (* second scale *)
  destruct (generateResponseAtScale_success this1 f 1 sigma1 response1)
    as (this2 & Hrun1 & Hd2 & _).
  { rewrite Hf1. exact Hf. }
  { rewrite Hs1. cbn. now rewrite Hsigma. }
  { rewrite Hi1, Ha1, Hn1. exact Hr1. }
  rewrite Hrun1. cbn beta iota.
  unfold SetInput1, SetInput2, MaximumAbsoluteValueFilter_Update, GraftOutput.
  run_method.
  cbn [withMaximumAbsoluteValueFilter m_MaximumAbsoluteValueFilter
       GetInput1 GetInput2 deref].
  rewrite Hd2. cbn.
  eexists. split; [reflexivity|].
  intros idx. cbn. apply MaximumAbsoluteValue_same.
Qed.

End Runs.

Lemma GenerateData_configuration_error_witness :
  exists e,
    ConfigurationError e = true
    /\ GenerateData fresh = (Throw e, fresh)
    /\ Update fresh = Throw e.
Proof.
  apply (GenerateData_configuration_error fresh).
  left; reflexivity.
Defined.

Lemma GenerateData_single_scale_witness :
  Update singleScale
  = andThen (SingleScalePipeline signedResponse unitImage 3)
            (fun response => OK (Some response))
  /\ filter isMaximumAbsoluteValue
            (executed (snd (GenerateData singleScale)))
     = [].
Proof.
  exact (GenerateData_single_scale singleScale signedResponse 3
                                   eq_refl eq_refl).
Defined.

Lemma generateResponseAtScale_rejects_non_positive_sigma_witness :
  let run := generateResponseAtScale 0 negativeScale in
  GetInput (snd run) = unitImage
  /\ exists e,
      fst run = Throw e
      /\ InvalidParameter e = true
      /\ executed (snd run) = [].
Proof.
  destruct (generateResponseAtScale_rejects_non_positive_sigma
              negativeScale signedResponse 0 (- (1)) eq_refl eq_refl)
    as (Hinput & Hfail & _).
  split; [exact Hinput|]. apply Hfail. lra.
Defined.

End MultiScaleFacts.

(** * Part III: further properties of the sources *)

(** ** The scale schedule *)

Module SigmaArrayMore.
Import Array SigmaArray SigmaArrayFacts.

Lemma Rmin_Rmax_eq a b : Rmin a b = Rmax a b <-> a = b.
Proof.
  unfold Rmin, Rmax. destruct (Rle_dec a b); split; intros; lra.
Qed.

(** After the count check, [GenerateSigmaArray] is the loop run on the
    ordered bounds. *)
Lemma GenerateSigmaArray_loop (a b : R) n m :
  (1 <= n)%Z ->
  GenerateSigmaArray a b n m
  = populate (Rmin a b) (Rmax a b)
             (if Req_dec_T (Rmin a b) (Rmax a b) then 1%Z else n) m
             (Z.to_nat (if Req_dec_T (Rmin a b) (Rmax a b) then 1%Z else n)
              - 1) 1
             (SetElement 0 (Rmin a b)
                (SetSize
                   (Z.to_nat
                      (if Req_dec_T (Rmin a b) (Rmax a b) then 1%Z else n)))).
Proof.
  intros Hn. unfold GenerateSigmaArray.
  destruct (Z.ltb_spec n 1) as [Hlt|_]; [lia|].
  cbv zeta; unfold SigmaType.
  assert (Hlo : (if Rgt_dec a b then b else a) = Rmin a b).
  { unfold Rmin. destruct (Rgt_dec a b), (Rle_dec a b); lra. }
  assert (Hhi : (if Rgt_dec a b then a else b) = Rmax a b).
  { unfold Rmax. destruct (Rgt_dec a b), (Rle_dec a b); lra. }
  rewrite Hlo, Hhi. unfold GetSize.
  rewrite SetElement_length. unfold SetSize. now rewrite repeat_length.
Qed.

Lemma populate_length lo hi n m : forall remaining lvl arr arr',
  populate lo hi n m remaining lvl arr = OK arr' -> length arr' = length arr.
Proof.
  induction remaining as [|r IH]; intros lvl arr arr'; simpl.
  - unfold OK. now intros [= <-].
  - destruct (thisSigma lo hi n m lvl) as [e|s]; [discriminate|].
    intros Hrun. apply IH in Hrun. now rewrite SetElement_length in Hrun.
Qed.

Lemma populate_out_of_range lo hi n value remaining lvl arr :
  populate lo hi n (OutOfRangeSigmaStepMethod value) (S remaining) lvl arr
  = Throw RequestedSigmaStepMethodDoesNotExist.
Proof. reflexivity. Qed.


(** X2: whenever [GenerateSigmaArray] returns a schedule, the requested
    count was at least 1 and the schedule has one element when the bounds
    are equal and exactly the requested number of elements otherwise; in
    particular it is never empty. *)
Theorem GenerateSigmaArray_size
    (a b : SigmaType) (n : SigmaStepsType) (m : SigmaStepMethodEnum)
    (arr : SigmaArrayType) :
  GenerateSigmaArray a b n m = OK arr ->
  (1 <= n)%Z
  /\ GetSize arr = (if Req_dec_T a b then 1%nat else Z.to_nat n)
  /\ (1 <= GetSize arr)%nat.
Proof.
  intros Hrun.
  assert (Hn : (1 <= n)%Z).
  { unfold GenerateSigmaArray in Hrun.
    destruct (Z.ltb_spec n 1) as [Hlt|Hge]; [discriminate | exact Hge]. }
  split; [exact Hn|].
  rewrite GenerateSigmaArray_loop in Hrun by exact Hn.
  apply populate_length in Hrun.
  rewrite SetElement_length in Hrun. unfold SetSize in Hrun.
  rewrite repeat_length in Hrun. unfold GetSize. rewrite Hrun.
  destruct (Req_dec_T (Rmin a b) (Rmax a b)) as [E|E],
           (Req_dec_T a b) as [E'|E'];
    try (exfalso; apply E'; now apply Rmin_Rmax_eq);
    try (exfalso; apply E; now apply Rmin_Rmax_eq);
    split; try reflexivity; lia.
Qed.

Lemma GenerateSigmaArray_size_witness :
  (1 <= 3)%Z
  /\ GetSize [1; 3; 5] = (if Req_dec_T 1 5 then 1%nat else Z.to_nat 3)
  /\ (1 <= GetSize [1; 3; 5]%R)%nat.
Proof.
  apply (GenerateSigmaArray_size 1 5 3%Z EquispacedSigmaSteps [1; 3; 5]).
  exact (proj1 GenerateEquispacedSigmaArray_1_5_3).
Defined.

(** X3: [GenerateSigmaArray] throws in exactly two situations: the
    requested count is below 1, or the step method is outside the
    enumeration while the loop has at least one turn (a count of at least 2
    and two different bounds).  With one element to produce an unknown step
    method goes unnoticed. *)
Theorem GenerateSigmaArray_throws_iff
    (a b : SigmaType) (n : SigmaStepsType) (m : SigmaStepMethodEnum)
    (e : ExceptionObject) :
  GenerateSigmaArray a b n m = Throw e
  <-> ((n < 1)%Z /\ e = NumberOfSigmaValuesRequestedIsLessThanOne)
      \/ ((2 <= n)%Z /\ a <> b
          /\ (exists value, m = OutOfRangeSigmaStepMethod value)
          /\ e = RequestedSigmaStepMethodDoesNotExist).
Proof.
  destruct (Z.ltb_spec n 1) as [Hlt|Hge].
  - unfold GenerateSigmaArray.
    destruct (Z.ltb_spec n 1) as [_|Hge]; [|lia]. unfold Throw. split.
    + intros [= <-]. left; auto.
    + intros [[_ ->] | [Hn _]]; [reflexivity | lia].
  - rewrite GenerateSigmaArray_loop by exact Hge.
    destruct (Req_dec_T (Rmin a b) (Rmax a b)) as [E|E].
    + (* equal bounds: one element, no turn of the loop *)
      apply (proj1 (Rmin_Rmax_eq a b)) in E. simpl. unfold OK, Throw. split.
      * discriminate.
      * intros [[Hn _] | (_ & Hab & _)]; [lia | destruct (Hab E)].
    + assert (Hab : a <> b) by (intros ->; apply E; now apply Rmin_Rmax_eq).
      destruct (Z.eq_dec n 1) as [->|Hn1].
      * simpl. unfold OK, Throw. split.
        -- discriminate.
        -- intros [[Hn _] | (Hn & _)]; lia.
      * destruct (Z.to_nat n - 1)%nat as [|r] eqn:Hr; [lia|].
        destruct m as [| |value].
        -- destruct (populate_known (Rmin a b) (Rmax a b) n
                       EquispacedSigmaSteps (or_introl eq_refl) (S r) 1
                       (SetElement 0 (Rmin a b) (SetSize (Z.to_nat n))))
             as (arr & Hrun & _).
           { rewrite SetElement_length. unfold SetSize.
             rewrite repeat_length. lia. }
           rewrite Hrun. unfold OK, Throw. split.
           ++ discriminate.
           ++ intros [[Hn _] | (_ & _ & [value Hm] & _)];
                [lia | discriminate].
        -- destruct (populate_known (Rmin a b) (Rmax a b) n
                       LogarithmicSigmaSteps (or_intror eq_refl) (S r) 1
                       (SetElement 0 (Rmin a b) (SetSize (Z.to_nat n))))
             as (arr & Hrun & _).
           { rewrite SetElement_length. unfold SetSize.
             rewrite repeat_length. lia. }
           rewrite Hrun. unfold OK, Throw. split.
           ++ discriminate.
           ++ intros [[Hn _] | (_ & _ & [value Hm] & _)];
                [lia | discriminate].
        -- rewrite populate_out_of_range. unfold Throw. split.
           ++ intros [= <-]. right. repeat split; eauto; lia.
           ++ intros [[Hn _] | (_ & _ & _ & ->)]; [lia | reflexivity].
Qed.

End SigmaArrayMore.

(** ** The voxel loop of [EigenToMeasureImageFilter] *)

Module ThreadsFacts.
Import Image ImageFacts Threads.

Lemma SingleThread_disjoint : disjoint SingleThread.
Proof.
  intros r. unfold SingleThread. apply FOP_cons; constructor.
Qed.

Lemma half_le (n : nat) : (n / 2 <= n)%nat.
Proof. apply Nat.Div0.div_le_upper_bound. lia. Qed.

Lemma TwoThreads_covers : covers TwoThreads.
Proof.
  intros [[[x0 y0] z0] [[sx sy] sz]] [[x y] z].
  unfold TwoThreads. cbn [GetIndex GetSize].
  pose proof (half_le sz) as Hhalf. set (h := (sz / 2)%nat) in *.
  unfold IsInside at 1. cbn [GetIndex GetSize]. unfold within.
  rewrite !andb_true_iff, !Z.leb_le, !Z.ltb_lt.
  split.
  - intros Hin.
    destruct (Z.ltb_spec z (z0 + Z.of_nat h)) as [Hlow|Hhigh].
    + eexists; split; [left; reflexivity|].
      unfold IsInside, within; cbn [GetIndex GetSize].
      rewrite !andb_true_iff, !Z.leb_le, !Z.ltb_lt. lia.
    + eexists; split; [right; left; reflexivity|].
      unfold IsInside, within; cbn [GetIndex GetSize].
      rewrite !andb_true_iff, !Z.leb_le, !Z.ltb_lt. lia.
  - intros (piece & [<- | [<- | []]] & Hin);
      unfold IsInside, within in Hin; cbn [GetIndex GetSize] in Hin;
      rewrite !andb_true_iff, !Z.leb_le, !Z.ltb_lt in Hin; lia.
Qed.

Lemma TwoThreads_disjoint : disjoint TwoThreads.
Proof.
  intros [[[x0 y0] z0] [[sx sy] sz]].
  unfold TwoThreads. cbn [GetIndex GetSize]. set (h := (sz / 2)%nat).
  apply FOP_cons; [|apply FOP_cons; constructor].
  constructor; [|constructor].
  intros [[x y] z]. unfold IsInside, within; cbn [GetIndex GetSize].
  rewrite !andb_true_iff, !Z.leb_le, !Z.ltb_lt. intros Hin.
  destruct (Z.leb_spec (z0 + Z.of_nat h) z) as [Hge|Hlt]; [lia|].
  now rewrite andb_false_r.
Qed.

Lemma NoDup_map_injective {A B : Type} (f : A -> B) (l : list A) :
  (forall x y, f x = f y -> x = y) -> NoDup l -> NoDup (map f l).
Proof.
  intros Hinj. induction 1 as [|x l Hnotin Hnodup IH]; simpl; constructor.
  - rewrite in_map_iff. intros (y & E & Hy). apply Hinj in E. now subst.
  - exact IH.
Qed.

(** The lists [f a] are free of repetitions and every element tells, by
    its [key], the one [a] it comes from. *)
Lemma NoDup_flat_map_key {A B : Type} (f : A -> list B) (key : B -> A)
    (l : list A) :
  NoDup l ->
  (forall a, In a l -> NoDup (f a)) ->
  (forall a b, In b (f a) -> key b = a) ->
  NoDup (flat_map f l).
Proof.
  intros Hl Hf Hkey. induction Hl as [|a l Hnotin Hnodup IH]; simpl.
  - constructor.
  - apply NoDup_app.
    + apply Hf. now left.
    + apply IH. intros a' Ha'. apply Hf. now right.
    + intros b Hb Hb'. apply in_flat_map in Hb'.
      destruct Hb' as (a' & Ha' & Hb').
      apply Hkey in Hb, Hb'. subst. contradiction.
Qed.

Lemma span_NoDup start size : NoDup (span start size).
Proof.
  unfold span. apply NoDup_map_injective; [intros; lia | apply seq_NoDup].
Qed.

(** The iterator visits no index twice. *)
Lemma Walk_NoDup r : NoDup (Walk r).
Proof.
  destruct r as [[[x0 y0] z0] [[sx sy] sz]]. unfold Walk; simpl.
  apply (NoDup_flat_map_key _ (fun '(_, _, z) => z));
    [apply span_NoDup | | ].
  - intros z _.
    apply (NoDup_flat_map_key _ (fun '(_, y, _) => y));
      [apply span_NoDup | | ].
    + intros y _. apply NoDup_map_injective; [|apply span_NoDup].
      intros x x' E. now injection E.
    + intros y [[x' y'] z'] Hin. apply in_map_iff in Hin.
      destruct Hin as (x & E & _). now injection E as _ <- _.
  - intros z [[x' y'] z'] Hin. apply in_flat_map in Hin.
    destruct Hin as (y & _ & Hin). apply in_map_iff in Hin.
    destruct Hin as (x & E & _). now injection E as _ _ <-.
Qed.

(** Pieces that do not overlap are walked without visiting an index
    twice. *)
Lemma pieces_NoDup pieces :
  ForallOrdPairs
    (fun piece piece' =>
       forall idx, IsInside piece idx = true -> IsInside piece' idx = false)
    pieces ->
  NoDup (flat_map Walk pieces).
Proof.
  induction 1 as [|piece pieces Hfirst Hrest IH]; simpl.
  - constructor.
  - apply NoDup_app; [apply Walk_NoDup | exact IH |].
    intros idx Hin Hin'. apply Walk_In in Hin. apply in_flat_map in Hin'.
    destruct Hin' as (piece' & Hp & Hin'). apply Walk_In in Hin'.
    rewrite Forall_forall in Hfirst.
    rewrite (Hfirst piece' Hp idx Hin) in Hin'. discriminate.
Qed.

End ThreadsFacts.

Module EigenToMeasureMore.
Import Image ImageFacts Threads ThreadsFacts EigenToMeasure EigenToMeasureFacts.

Section Walks.
Context {Self : Type} `{EigenToMeasureImageFilter Self}.
Variables (this : Self) (inputPtr : InputImageType)
          (maskPointer : option MaskSpatialObjectType).

Lemma visits_geometry l : forall w,
  GetBufferedRegion
    (outputPtr (fold_left (visit this inputPtr maskPointer) l w))
  = GetBufferedRegion (outputPtr w)
  /\ TransformIndexToPhysicalPoint
       (outputPtr (fold_left (visit this inputPtr maskPointer) l w))
     = TransformIndexToPhysicalPoint (outputPtr w).
Proof.
  induction l as [|idx l IH]; intros w; simpl; [split; reflexivity|].
  destruct (IH (visit this inputPtr maskPointer w idx)) as [-> ->].
  unfold visit. destruct (passesMask maskPointer _); split; reflexivity.
Qed.

Lemma pieces_geometry pieces : forall w,
  GetBufferedRegion
    (outputPtr
       (fold_left (processRegion this inputPtr maskPointer) pieces w))
  = GetBufferedRegion (outputPtr w)
  /\ TransformIndexToPhysicalPoint
       (outputPtr
          (fold_left (processRegion this inputPtr maskPointer) pieces w))
     = TransformIndexToPhysicalPoint (outputPtr w).
Proof.
  induction pieces as [|piece pieces IH]; intros w; simpl;
    [split; reflexivity|].
  destruct (IH (processRegion this inputPtr maskPointer w piece)) as [-> ->].
  apply visits_geometry.
Qed.

(** The calls of [ProcessPixel] of one walk, latest first. *)
Lemma visits_calls l : forall w,
  evaluated (fold_left (visit this inputPtr maskPointer) l w)
  = rev (filter (fun idx =>
                   passesMask maskPointer
                     (TransformIndexToPhysicalPoint inputPtr idx))
                l)
    ++ evaluated w.
Proof.
  induction l as [|idx l IH]; intros w; simpl; [reflexivity|].
  rewrite IH. unfold visit.
  destruct (passesMask maskPointer _); simpl; [|reflexivity].
  now rewrite <- app_assoc.
Qed.

Lemma pieces_calls pieces : forall w,
  evaluated (fold_left (processRegion this inputPtr maskPointer) pieces w)
  = rev (filter (fun idx =>
                   passesMask maskPointer
                     (TransformIndexToPhysicalPoint inputPtr idx))
                (flat_map Walk pieces))
    ++ evaluated w.
Proof.
  induction pieces as [|piece pieces IH]; intros w; simpl; [reflexivity|].
  rewrite IH. unfold processRegion. rewrite visits_calls.
  now rewrite filter_app, rev_app_distr, <- app_assoc.
Qed.

End Walks.

(** X8: [GenerateData] writes inside the requested region only.  The
    output image keeps its region and its geometry, every voxel outside the
    requested region holds what it held before, and [ProcessPixel] is not
    called for an index outside the region. *)
Theorem GenerateData_writes_inside_requested_region
    {Self : Type} `{EigenToMeasureImageFilter Self}
    (split : Splitter) (this : Self) (inputPtr : InputImageType)
    (maskPointer : option MaskSpatialObjectType)
    (allocated : OutputImageType) :
  covers split ->
  let w := snd (GenerateData split this inputPtr maskPointer allocated) in
  GetBufferedRegion (outputPtr w) = GetBufferedRegion allocated
  /\ TransformIndexToPhysicalPoint (outputPtr w)
     = TransformIndexToPhysicalPoint allocated
  /\ forall idx,
      IsInside (GetBufferedRegion allocated) idx = false ->
      GetPixel (outputPtr w) idx = GetPixel allocated idx
      /\ ~ In idx (evaluated w).
Proof.
  intros Hcov w. unfold w, GenerateData, ParallelizeImageRegion; simpl.
  split; [apply pieces_geometry|]. split; [apply pieces_geometry|].
  intros idx Hout.
  assert (Hnone : ~ exists piece,
             In piece (split (GetBufferedRegion allocated))
             /\ IsInside piece idx = true).
  { intros Hex. apply Hcov in Hex. congruence. }
  split.
  - rewrite pieces_pixel.
    destruct (existsb (fun piece => IsInside piece idx)
                (split (GetBufferedRegion allocated))) eqn:E;
      [|reflexivity].
    apply existsb_exists in E. contradiction.
  - rewrite pieces_evaluated. simpl. intros [[Hex _] | []]. contradiction.
Qed.

Lemma GenerateData_writes_inside_requested_region_witness :
  let w := snd (GenerateData TwoThreads tt sampleInput
                             (Some halfSpaceMask) sampleAllocated) in
  GetBufferedRegion (outputPtr w) = twoVoxels
  /\ TransformIndexToPhysicalPoint (outputPtr w) = unitGeometry
  /\ forall idx,
      IsInside twoVoxels idx = false ->
      GetPixel (outputPtr w) idx = 7 /\ ~ In idx (evaluated w).
Proof.
  exact (GenerateData_writes_inside_requested_region
           TwoThreads tt sampleInput (Some halfSpaceMask) sampleAllocated
           TwoThreads_covers).
Defined.

(** X9: the result of [GenerateData] does not depend on how the
    multi-threader cuts the requested region into work units: two sound
    splits leave the same filter state, the same value at every voxel, and
    the same set of voxels at which [ProcessPixel] was called. *)
Theorem GenerateData_independent_of_split
    {Self : Type} `{EigenToMeasureImageFilter Self}
    (split split' : Splitter) (this : Self) (inputPtr : InputImageType)
    (maskPointer : option MaskSpatialObjectType)
    (allocated : OutputImageType) :
  covers split -> covers split' ->
  let run := GenerateData split this inputPtr maskPointer allocated in
  let run' := GenerateData split' this inputPtr maskPointer allocated in
  fst run = fst run'
  /\ forall idx,
      GetPixel (outputPtr (snd run)) idx = GetPixel (outputPtr (snd run')) idx
      /\ (In idx (evaluated (snd run)) <-> In idx (evaluated (snd run'))).
Proof.
  intros Hcov Hcov' run run'.
  unfold run, run', GenerateData, ParallelizeImageRegion; simpl.
  split; [reflexivity|]. intros idx. split.
  - rewrite !pieces_pixel.
    assert (E : existsb (fun piece => IsInside piece idx)
                  (split (GetBufferedRegion allocated))
                = existsb (fun piece => IsInside piece idx)
                    (split' (GetBufferedRegion allocated))).
    { apply eq_true_iff_eq. rewrite !existsb_exists.
      now rewrite <- (Hcov _ idx), <- (Hcov' _ idx). }
    now rewrite E.
  - rewrite !pieces_evaluated.
    now rewrite <- (Hcov _ idx), <- (Hcov' _ idx).
Qed.

Lemma GenerateData_independent_of_split_witness :
  let run := GenerateData SingleThread tt sampleInput
                          (Some halfSpaceMask) sampleAllocated in
  let run' := GenerateData TwoThreads tt sampleInput
                           (Some halfSpaceMask) sampleAllocated in
  fst run = fst run'
  /\ forall idx,
      GetPixel (outputPtr (snd run)) idx = GetPixel (outputPtr (snd run')) idx
      /\ (In idx (evaluated (snd run)) <-> In idx (evaluated (snd run'))).
Proof.
  exact (GenerateData_independent_of_split
           SingleThread TwoThreads tt sampleInput (Some halfSpaceMask)
           sampleAllocated SingleThread_covers TwoThreads_covers).
Defined.

(** X10: when the work units cover the requested region and do not
    overlap, [ProcessPixel] is called exactly once for each voxel of the
    region whose point passes the mask test and for no other index: the
    calls are a rearrangement of those voxels, without repetition. *)
Theorem GenerateData_one_call_per_voxel
    {Self : Type} `{EigenToMeasureImageFilter Self}
    (split : Splitter) (this : Self) (inputPtr : InputImageType)
    (maskPointer : option MaskSpatialObjectType)
    (allocated : OutputImageType) :
  covers split -> disjoint split ->
  let w := snd (GenerateData split this inputPtr maskPointer allocated) in
  NoDup (evaluated w)
  /\ Permutation
       (evaluated w)
       (filter (fun idx =>
                  passesMask maskPointer
                    (TransformIndexToPhysicalPoint inputPtr idx))
               (Walk (GetBufferedRegion allocated))).
Proof.
  intros Hcov Hdis w.
  assert (Hcalls : NoDup (evaluated w)).
  { unfold w, GenerateData, ParallelizeImageRegion; simpl.
    rewrite pieces_calls, app_nil_r.
    apply NoDup_rev, NoDup_filter, pieces_NoDup, Hdis. }
  split; [exact Hcalls|].
  apply NoDup_Permutation;
    [exact Hcalls | apply NoDup_filter, Walk_NoDup |].
  intros idx. rewrite filter_In, Walk_In.
  unfold w, GenerateData, ParallelizeImageRegion; simpl.
  rewrite pieces_evaluated; simpl. rewrite <- (Hcov _ idx). tauto.
Qed.

Lemma GenerateData_one_call_per_voxel_witness :
  let w := snd (GenerateData TwoThreads tt sampleInput
                             (Some halfSpaceMask) sampleAllocated) in
  NoDup (evaluated w)
  /\ Permutation
       (evaluated w)
       (filter (fun idx =>
                  passesMask (Some halfSpaceMask)
                    (TransformIndexToPhysicalPoint sampleInput idx))
               (Walk twoVoxels)).
Proof.
  exact (GenerateData_one_call_per_voxel
           TwoThreads tt sampleInput (Some halfSpaceMask) sampleAllocated
           TwoThreads_covers TwoThreads_disjoint).
Defined.

End EigenToMeasureMore.

(** ** Runs of the aggregator *)

Module MultiScaleMore.
Import Array Image MultiScale MultiScaleRun MultiScaleFacts.

(** Either every scale of a list has a result, or there is a first scale
    that has none. *)
Lemma outcomes_or_first_failure {X : Type} (outcome : R -> Result X)
    (sigmas : Array) :
  (exists rs,
      Forall2 (fun sigma response => outcome sigma = OK response) sigmas rs)
  \/ (exists good rs sigma rest e,
         sigmas = good ++ sigma :: rest
         /\ Forall2 (fun sigma response => outcome sigma = OK response)
                    good rs
         /\ outcome sigma = Throw e).
Proof.
  induction sigmas as [|sigma sigmas IH].
  - left. exists []. constructor.
  - destruct (outcome sigma) as [e|response] eqn:Hresponse.
    + right. exists [], [], sigma, sigmas, e.
      split; [reflexivity|]. split; [apply Forall2_nil | exact Hresponse].
    + destruct IH as [(rs & Hall) | (good & rs & s & rest & e & -> & Hg & He)].
      * left. exists (response :: rs). now constructor.
      * right. exists (sigma :: good), (response :: rs), s, rest, e.
        split; [reflexivity|]. split; [now constructor | exact He].
Qed.

Section Runs.
Context {collaborators : Collaborators}.

Lemma sameConfiguration_trans (this this1 this2 : Self) :
  sameConfiguration this this1 -> sameConfiguration this1 this2 ->
  sameConfiguration this this2.
Proof.
  unfold sameConfiguration.
  intros (-> & -> & -> & -> & -> & ->) (-> & -> & -> & -> & -> & ->).
  repeat split.
Qed.

Lemma responseAt_sameConfiguration (this this1 : Self) f sigma :
  sameConfiguration this this1 ->
  responseAt this1 f sigma = responseAt this f sigma.
Proof.
  intros (_ & _ & Hi & _ & Ha & Hn). unfold responseAt.
  now rewrite Hi, Ha, Hn.
Qed.

(** One pass of the pipeline, whatever its outcome. *)
Lemma generateResponseAtScale_outcome (this : Self) f scaleLevel sigma :
  m_EigenToScalarImageFilter this = Some f ->
  GetElement scaleLevel (m_SigmaArray this) = Some sigma ->
  exists this1,
    generateResponseAtScale scaleLevel this
    = (andThen (responseAt this f sigma) (fun _ => OK EigenToScalarOutput),
       this1)
    /\ sameConfiguration this this1
    /\ m_MaximumAbsoluteValueFilter this1 = m_MaximumAbsoluteValueFilter this
    /\ deref this1 MaximumAbsoluteValueOutput
       = deref this MaximumAbsoluteValueOutput
    /\ GetSigma (m_HessianFilter this1) = sigma
    /\ match responseAt this f sigma with
       | inr response =>
           deref this1 EigenToScalarOutput = Some response
           /\ executed this1 = rev (pipelineAt sigma) ++ executed this
       | inl _ =>
           deref this1 EigenToScalarOutput = deref this EigenToScalarOutput
       end.
Proof.
  intros Hf Hsigma.
  unfold generateResponseAtScale, SetSigma, EigenToScalarImageFilter_Update,
    responseAt, andThen.
  run_method. rewrite Hf, Hsigma. cbn.
  destruct (HessianFilter_GenerateData _ sigma (GetInput this))
    as [e|tensor]; cbn.
  { eexists. split; [reflexivity|]. repeat split. }
  destruct (EigenAnalysisFilter_GenerateData _ _ tensor) as [e|eigen]; cbn.
  { eexists. split; [reflexivity|]. repeat split. }
  destruct (EigenToScalar_GenerateData f eigen) as [e|response]; cbn.
  { eexists. split; [reflexivity|]. repeat split. }
  eexists. split; [reflexivity|]. repeat split.
Qed.

(** One turn of the loop over the later scales, whatever the outcome of
    the pipeline; [a] is the image the running pointer addresses. *)
Lemma combineWithScale_outcome (this : Self) f scaleLevel sigma p a :
  m_EigenToScalarImageFilter this = Some f ->
  GetElement scaleLevel (m_SigmaArray this) = Some sigma ->
  deref this p = Some a ->
  exists this2,
    combineWithScale p scaleLevel this
    = (andThen (responseAt this f sigma)
               (fun _ => OK MaximumAbsoluteValueOutput), this2)
    /\ sameConfiguration this this2
    /\ match responseAt this f sigma with
       | inr response =>
           deref this2 MaximumAbsoluteValueOutput
           = Some (MaximumAbsoluteValueFilter_GenerateData
                     (match p with
                      | EigenToScalarOutput => response
                      | MaximumAbsoluteValueOutput => a
                      end) response)
           /\ executed this2
              = RanMaximumAbsoluteValueFilter
                :: rev (pipelineAt sigma) ++ executed this
       | inl _ => True
       end.
Proof.
  intros Hf Hsigma Ha.
  destruct (generateResponseAtScale_outcome this f scaleLevel sigma Hf Hsigma)
    as (this1 & Hrun & Hcfg & _ & HdM & _ & Hcase).
  unfold combineWithScale. unfold bind at 1. rewrite Hrun.
  destruct (responseAt this f sigma) as [e|response]; cbn [andThen].
  - exists this1. split; [reflexivity|]. split; [exact Hcfg | exact I].
  - destruct Hcase as [HdE Hran].
    unfold SetInput1, SetInput2, MaximumAbsoluteValueFilter_Update.
    run_method.
    cbn [withMaximumAbsoluteValueFilter m_MaximumAbsoluteValueFilter
         GetInput1 GetInput2 deref].
    assert (Hp : deref this1 p
                 = Some (match p with
                         | EigenToScalarOutput => response
                         | MaximumAbsoluteValueOutput => a
                         end)).
    { destruct p; [exact HdE | now rewrite HdM]. }
    rewrite Hp, HdE. cbn beta iota.
    eexists. split; [reflexivity|]. split.
    + unfold sameConfiguration. cbn. exact Hcfg.
    + cbn. split; [reflexivity|]. now rewrite Hran.
Qed.

Section Loop.
Variables (this0 : Self) (f : EigenToScalarImageFilterType).
Hypothesis functor_present : m_EigenToScalarImageFilter this0 = Some f.

Lemma functor_kept (this : Self) :
  sameConfiguration this0 this -> m_EigenToScalarImageFilter this = Some f.
Proof. intros (_ & -> & _). exact functor_present. Qed.

Lemma GetElement_app (done sigmas : Array) sigma :
  GetElement (length done) (done ++ sigma :: sigmas) = Some sigma.
Proof.
  unfold GetElement. rewrite nth_error_app2 by lia.
  now rewrite Nat.sub_diag.
Qed.

(** The loop over the later scales when the pipeline succeeds at each of
    them. *)
Lemma remainingScales_success sigmas rs :
  Forall2 (fun sigma response => responseAt this0 f sigma = OK response)
          sigmas rs ->
  forall this done p a,
    sameConfiguration this0 this ->
    m_SigmaArray this = done ++ sigmas ->
    deref this p = Some a ->
    exists this' result,
      remainingScales (length sigmas) (length done) p this
      = (OK (match sigmas with
             | [] => p
             | _ :: _ => MaximumAbsoluteValueOutput
             end), this')
      /\ sameConfiguration this0 this'
      /\ deref this' (match sigmas with
                      | [] => p
                      | _ :: _ => MaximumAbsoluteValueOutput
                      end) = Some result
      /\ (forall idx,
             GetPixel result idx
             = fold_left MaximumAbsoluteValue
                 (map (fun response => GetPixel response idx) rs)
                 (match p, rs with
                  | EigenToScalarOutput, response :: _ =>
                      GetPixel response idx
                  | _, _ => GetPixel a idx
                  end))
      /\ executed this'
         = rev (flat_map (fun sigma => pipelineAt sigma
                                       ++ [RanMaximumAbsoluteValueFilter])
                         sigmas)
           ++ executed this.
Proof.
  induction 1 as [|sigma response sigmas rs Hresponse Hrest IH];
    intros this done p a Hcfg Harr Ha.
  - exists this, a. cbn [length remainingScales map fold_left flat_map rev
                          app].
    split; [reflexivity|]. split; [exact Hcfg|]. split; [exact Ha|].
    split; [intros idx; now destruct p | reflexivity].
  - assert (Hf : m_EigenToScalarImageFilter this = Some f)
      by (now apply functor_kept).
    destruct (combineWithScale_outcome this f (length done) sigma p a Hf)
      as (this2 & Hrun & Hcfg2 & Hcase); [|exact Ha|].
    { rewrite Harr. apply GetElement_app. }
    rewrite (responseAt_sameConfiguration this0 this f sigma Hcfg), Hresponse
      in Hrun, Hcase.
    cbn [andThen] in Hrun. destruct Hcase as [Hd2 Hran2].
    destruct (IH this2 (done ++ [sigma]) MaximumAbsoluteValueOutput
                 (MaximumAbsoluteValueFilter_GenerateData
                    (match p with
                     | EigenToScalarOutput => response
                     | MaximumAbsoluteValueOutput => a
                     end) response)
                 (sameConfiguration_trans _ _ _ Hcfg Hcfg2))
      as (this' & result & Hloop & Hcfg' & Hd' & Hpix & Hran');
      [| exact Hd2 |].
    { destruct Hcfg2 as (-> & _). rewrite Harr, <- app_assoc. reflexivity. }
    rewrite length_app, Nat.add_1_r in Hloop.
    assert (Hptr : (match sigmas with
                    | [] => MaximumAbsoluteValueOutput
                    | _ :: _ => MaximumAbsoluteValueOutput
                    end) = MaximumAbsoluteValueOutput)
      by (now destruct sigmas).
    rewrite Hptr in Hloop, Hd'.
    exists this', result.
    cbn [length remainingScales]. unfold bind at 1. rewrite Hrun.
    unfold OK at 1. cbn beta iota.
    split; [exact Hloop|]. split; [exact Hcfg'|]. split; [exact Hd'|].
    split.
    + intros idx. rewrite Hpix. cbn [map fold_left].
      cbn [GetPixel MaximumAbsoluteValueFilter_GenerateData].
      destruct p; reflexivity.
    + rewrite Hran', Hran2. cbn [flat_map]. rewrite rev_app_distr.
      rewrite <- app_assoc. reflexivity.
Qed.

(** The loop over the later scales when the pipeline fails at one of
    them: the exception of the first failing scale ends the loop. *)
Lemma remainingScales_failure good rs sigma rest e :
  Forall2 (fun sigma response => responseAt this0 f sigma = OK response)
          good rs ->
  responseAt this0 f sigma = Throw e ->
  forall this done p a,
    sameConfiguration this0 this ->
    m_SigmaArray this = done ++ good ++ sigma :: rest ->
    deref this p = Some a ->
    exists this',
      remainingScales (length (good ++ sigma :: rest)) (length done) p this
      = (Throw e, this')
      /\ sameConfiguration this0 this'.
Proof.
  intros Hgood Hfail.
  induction Hgood as [|sigma' response good rs Hresponse Hrest IH];
    intros this done p a Hcfg Harr Ha;
    assert (Hf : m_EigenToScalarImageFilter this = Some f)
      by (now apply functor_kept).
  - destruct (combineWithScale_outcome this f (length done) sigma p a Hf)
      as (this2 & Hrun & Hcfg2 & _); [|exact Ha|].
    { rewrite Harr. apply GetElement_app. }
    rewrite (responseAt_sameConfiguration this0 this f sigma Hcfg), Hfail
      in Hrun.
    exists this2. cbn [app length remainingScales]. unfold bind at 1.
    rewrite Hrun. cbn. split; [reflexivity|].
    exact (sameConfiguration_trans _ _ _ Hcfg Hcfg2).
  - destruct (combineWithScale_outcome this f (length done) sigma' p a Hf)
      as (this2 & Hrun & Hcfg2 & Hcase); [|exact Ha|].
    { rewrite Harr. apply (GetElement_app done (good ++ sigma :: rest)). }
    rewrite (responseAt_sameConfiguration this0 this f sigma' Hcfg),
      Hresponse in Hrun, Hcase.
    cbn [andThen] in Hrun. destruct Hcase as [Hd2 _].
    destruct (IH this2 (done ++ [sigma']) MaximumAbsoluteValueOutput
                 (MaximumAbsoluteValueFilter_GenerateData
                    (match p with
                     | EigenToScalarOutput => response
                     | MaximumAbsoluteValueOutput => a
                     end) response)
                 (sameConfiguration_trans _ _ _ Hcfg Hcfg2))
      as (this' & Hloop & Hcfg'); [| exact Hd2 |].
    { destruct Hcfg2 as (-> & _). rewrite Harr, <- app_assoc. reflexivity. }
    replace (length (done ++ [sigma'])) with (S (length done)) in Hloop
      by (rewrite length_app; simpl; lia).
    exists this'. cbn [app length remainingScales]. unfold bind at 1.
    rewrite Hrun. unfold OK at 1. cbn beta iota.
    split; [exact Hloop | exact Hcfg'].
Qed.

End Loop.

Lemma responseAt_configured (this : Self) f policy sigma :
  declaredPolicy f = OK policy ->
  responseAt (configured policy this) f sigma
  = SingleScalePipeline f (GetInput this) sigma.
Proof.
  intros Hpolicy.
  unfold responseAt, SingleScalePipeline, TensorField, Decompose, Measure.
  rewrite Hpolicy. reflexivity.
Qed.

(** [GenerateData] once both checks have passed and the order has been
    converted. *)
Lemma GenerateData_configured (this : Self) f policy :
  m_EigenToScalarImageFilter this = Some f ->
  (1 <= Array.GetSize (m_SigmaArray this))%nat ->
  declaredPolicy f = OK policy ->
  GenerateData this
  = bind (generateResponseAtScale 0)
         (fun p =>
            bind (remainingScales (Array.GetSize (m_SigmaArray this) - 1) 1 p)
                 GraftOutput)
         (configured policy this).
Proof.
  intros Hf Hsize Hpolicy.
  unfold GenerateData, configured, SetNormalizeAcrossScale, SetDimension,
    OrderEigenValuesBy.
  run_method. rewrite Hf.
  destruct (Nat.ltb_spec (Array.GetSize (m_SigmaArray this)) 1) as [Hlt|_];
    [lia|].
  rewrite ConvertType_run, Hpolicy. reflexivity.
Qed.

(** [GenerateData] when the functor filter declares an order outside the
    enumeration. *)
Lemma GenerateData_unconverted (this : Self) f e :
  m_EigenToScalarImageFilter this = Some f ->
  (1 <= Array.GetSize (m_SigmaArray this))%nat ->
  declaredPolicy f = Throw e ->
  GenerateData this
  = (Throw e,
     snd (bind (SetNormalizeAcrossScale true)
               (fun _ => SetDimension ImageDimension) this)).
Proof.
  intros Hf Hsize Hpolicy.
  unfold GenerateData, SetNormalizeAcrossScale, SetDimension.
  run_method. rewrite Hf.
  destruct (Nat.ltb_spec (Array.GetSize (m_SigmaArray this)) 1) as [Hlt|_];
    [lia|].
  rewrite ConvertType_run, Hpolicy. reflexivity.
Qed.

Lemma Forall2_responseAt_configured (this : Self) f policy sigmas rs :
  declaredPolicy f = OK policy ->
  Forall2 (fun sigma response =>
             SingleScalePipeline f (GetInput this) sigma = OK response)
          sigmas rs ->
  Forall2 (fun sigma response =>
             responseAt (configured policy this) f sigma = OK response)
          sigmas rs.
Proof.
  intros Hpolicy. apply Forall2_impl. intros sigma response.
  now rewrite (responseAt_configured this f policy sigma Hpolicy).
Qed.

(** A run in which the pipeline succeeds at every scale. *)
Lemma GenerateData_all_succeed (this : Self) f policy sigma0 sigmas
    response0 rs :
  m_EigenToScalarImageFilter this = Some f ->
  m_SigmaArray this = sigma0 :: sigmas ->
  declaredPolicy f = OK policy ->
  SingleScalePipeline f (GetInput this) sigma0 = OK response0 ->
  Forall2 (fun sigma response =>
             SingleScalePipeline f (GetInput this) sigma = OK response)
          sigmas rs ->
  exists this' output,
    GenerateData this = (OK tt, this')
    /\ m_SigmaArray this' = m_SigmaArray this
    /\ m_EigenToScalarImageFilter this' = Some f
    /\ GetInput this' = GetInput this
    /\ GetOutput this' = Some output
    /\ (forall idx,
           GetPixel output idx
           = fold_left MaximumAbsoluteValue
               (map (fun response => GetPixel response idx) rs)
               (GetPixel (hd response0 rs) idx))
    /\ executed this'
       = rev (scheduleTrace (sigma0 :: sigmas)) ++ executed this.
Proof.
  intros Hf Harr Hpolicy Hfirst Hrest.
  assert (Hsize : (1 <= Array.GetSize (m_SigmaArray this))%nat)
    by (rewrite Harr; simpl; lia).
  rewrite (GenerateData_configured this f policy Hf Hsize Hpolicy).
  set (st := configured policy this).
  assert (Hfst : m_EigenToScalarImageFilter st = Some f) by exact Hf.
  destruct (generateResponseAtScale_outcome st f 0 sigma0 Hfst)
    as (this1 & Hrun & Hcfg1 & _ & _ & _ & Hcase).
  { change (m_SigmaArray st) with (m_SigmaArray this). now rewrite Harr. }
  unfold st in Hrun, Hcase.
  rewrite (responseAt_configured this f policy sigma0 Hpolicy), Hfirst
    in Hrun, Hcase.
  fold st in Hrun. unfold andThen, OK in Hrun.
  destruct Hcase as [HdE Hran1].
  destruct (remainingScales_success st f Hfst sigmas rs
              (Forall2_responseAt_configured this f policy sigmas rs
                 Hpolicy Hrest)
              this1 [sigma0] EigenToScalarOutput response0 Hcfg1)
    as (this2 & result & Hloop & Hcfg2 & Hd2 & Hpix & Hran2);
    [| exact HdE |].
  { destruct Hcfg1 as (-> & _).
    change (m_SigmaArray st) with (m_SigmaArray this). now rewrite Harr. }
  rewrite Harr. cbn [Array.GetSize length Nat.sub].
  rewrite Nat.sub_0_r.
  cbn [length] in Hloop.
  unfold bind at 1. rewrite Hrun. cbn beta iota.
  unfold bind at 1. rewrite Hloop. unfold OK at 1. cbn beta iota.
  unfold GraftOutput, modify. rewrite Hd2.
  destruct Hcfg2 as (Hs2 & Hf2 & Hi2 & _).
  eexists. exists result. split; [reflexivity|].
  cbn [withOutput m_SigmaArray m_EigenToScalarImageFilter GetInput GetOutput
       executed].
  split; [rewrite Hs2; now rewrite <- Harr|].
  split; [now rewrite Hf2|]. split; [exact Hi2|]. split; [reflexivity|].
  split.
  - intros idx. rewrite Hpix. now destruct rs.
  - rewrite Hran2, Hran1. cbn [scheduleTrace]. rewrite rev_app_distr.
    now rewrite <- app_assoc.
Qed.

(** A run in which the pipeline fails at some scale after succeeding at
    the earlier ones. *)
Lemma GenerateData_fails_at (this : Self) f policy good rs sigma rest e :
  m_EigenToScalarImageFilter this = Some f ->
  m_SigmaArray this = good ++ sigma :: rest ->
  declaredPolicy f = OK policy ->
  Forall2 (fun sigma response =>
             SingleScalePipeline f (GetInput this) sigma = OK response)
          good rs ->
  SingleScalePipeline f (GetInput this) sigma = Throw e ->
  exists this',
    GenerateData this = (Throw e, this')
    /\ m_SigmaArray this' = m_SigmaArray this
    /\ m_EigenToScalarImageFilter this' = Some f
    /\ GetInput this' = GetInput this
    /\ GetOutput this' = GetOutput this.
Proof.
  intros Hf Harr Hpolicy Hgood Hfail.
  assert (Hsize : (1 <= Array.GetSize (m_SigmaArray this))%nat)
    by (rewrite Harr; unfold Array.GetSize; rewrite length_app; simpl; lia).
  rewrite (GenerateData_configured this f policy Hf Hsize Hpolicy).
  set (st := configured policy this).
  assert (Hfst : m_EigenToScalarImageFilter st = Some f) by exact Hf.
  assert (Hfail' : responseAt st f sigma = Throw e).
  { unfold st. now rewrite (responseAt_configured this f policy sigma). }
  destruct Hgood as [|sigma0 response0 good rs Hfirst Hgood].
  - (* the first scale fails *)
    destruct (generateResponseAtScale_outcome st f 0 sigma Hfst)
      as (this1 & Hrun & Hcfg1 & _).
    { change (m_SigmaArray st) with (m_SigmaArray this). now rewrite Harr. }
    rewrite Hfail' in Hrun. unfold andThen, Throw in Hrun.
    unfold bind at 1. rewrite Hrun. cbn beta iota.
    destruct Hcfg1 as (Hs1 & Hf1 & Hi1 & Ho1 & _).
    exists this1. split; [reflexivity|].
    split; [exact Hs1|]. split; [now rewrite Hf1|].
    split; [exact Hi1 | exact Ho1].
  - destruct (generateResponseAtScale_outcome st f 0 sigma0 Hfst)
      as (this1 & Hrun & Hcfg1 & _ & _ & _ & Hcase).
    { change (m_SigmaArray st) with (m_SigmaArray this). now rewrite Harr. }
    unfold st in Hrun, Hcase.
    rewrite (responseAt_configured this f policy sigma0 Hpolicy), Hfirst
      in Hrun, Hcase.
    fold st in Hrun. unfold andThen, OK in Hrun.
    destruct Hcase as [HdE _].
    destruct (remainingScales_failure st f Hfst good rs sigma rest e
                (Forall2_responseAt_configured this f policy good rs
                   Hpolicy Hgood)
                Hfail' this1 [sigma0] EigenToScalarOutput response0 Hcfg1)
      as (this2 & Hloop & Hcfg2); [| exact HdE |].
    { destruct Hcfg1 as (-> & _).
      change (m_SigmaArray st) with (m_SigmaArray this). now rewrite Harr. }
    replace (Array.GetSize (m_SigmaArray this) - 1)%nat
      with (length (good ++ sigma :: rest))
      by (unfold Array.GetSize; rewrite Harr; simpl; lia).
    cbn [length] in Hloop.
    unfold bind at 1. rewrite Hrun. cbn beta iota.
    unfold bind at 1. rewrite Hloop. unfold Throw at 1. cbn beta iota.
    destruct Hcfg2 as (Hs2 & Hf2 & Hi2 & Ho2 & _).
    exists this2. split; [reflexivity|].
    split; [exact Hs2|]. split; [now rewrite Hf2|].
    split; [exact Hi2 | exact Ho2].
Qed.

Lemma declaredPolicy_of_response (f : EigenToScalarImageFilterType)
    (input : InputImageType) sigma response :
  SingleScalePipeline f input sigma = OK response ->
  exists policy, declaredPolicy f = OK policy.
Proof.
  unfold SingleScalePipeline.
  destruct (declaredPolicy f) as [e|policy]; [discriminate | eauto].
Qed.

Lemma GenerateData_without_functor (this : Self) :
  m_EigenToScalarImageFilter this = None ->
  GenerateData this = (Throw EigenToScalarImageFilterIsNotPresent, this).
Proof.
  intros Hf. unfold GenerateData. run_method. now rewrite Hf.
Qed.

Lemma GenerateData_without_sigma (this : Self) f :
  m_EigenToScalarImageFilter this = Some f ->
  m_SigmaArray this = [] ->
  GenerateData this = (Throw (SigmaArrayMustHaveAtLeastOneSigmaValue 0), this).
Proof.
  intros Hf Harr. unfold GenerateData. run_method. now rewrite Hf, Harr.
Qed.

(** X11: when [GenerateData] returns, the internal filters have been
    executed in this order and no other execution has taken place: the
    Hessian filter at the first sigma, the eigen-analysis filter, the
    functor filter; then, for each later sigma in the order of the array,
    the same three followed by the maximum-absolute-value filter. *)
Theorem GenerateData_executes_schedule_in_order (this this' : Self) :
  GenerateData this = (OK tt, this') ->
  executed this' = rev (scheduleTrace (m_SigmaArray this)) ++ executed this.
Proof.
  intros Hrun.
  destruct (m_EigenToScalarImageFilter this) as [f|] eqn:Hf;
    [|rewrite (GenerateData_without_functor this Hf) in Hrun; discriminate].
  destruct (m_SigmaArray this) as [|sigma0 sigmas] eqn:Harr;
    [rewrite (GenerateData_without_sigma this f Hf Harr) in Hrun;
     discriminate|].
  assert (Hsize : (1 <= Array.GetSize (m_SigmaArray this))%nat)
    by (rewrite Harr; simpl; lia).
  destruct (declaredPolicy f) as [e|policy] eqn:Hpolicy;
    [rewrite (GenerateData_unconverted this f e Hf Hsize Hpolicy) in Hrun;
     discriminate|].
  destruct (outcomes_or_first_failure
              (SingleScalePipeline f (GetInput this)) (sigma0 :: sigmas))
    as [(rs & Hall) | (good & rs & s & rest & e & Hsplit & Hgood & Hfail)].
  - inversion Hall as [|? response0 ? rs' Hfirst Hrest]; subst.
    destruct (GenerateData_all_succeed this f policy sigma0 sigmas
                response0 rs' Hf Harr Hpolicy Hfirst Hrest)
      as (this'' & output & Hrun' & _ & _ & _ & _ & _ & Htrace).
    rewrite Hrun' in Hrun. injection Hrun as <-. exact Htrace.
  - rewrite Hsplit in Harr.
    destruct (GenerateData_fails_at this f policy good rs s rest e
                Hf Harr Hpolicy Hgood Hfail) as (this'' & Hrun' & _).
    rewrite Hrun' in Hrun. discriminate.
Qed.

(** X13: [GenerateData] has no handler of its own: when the pipeline
    succeeds at the scales before some scale of the array and fails at that
    one, the run ends with the very exception of that scale, and the
    aggregator's output is what it was before the run. *)
Theorem GenerateData_first_failure (this : Self)
    (f : EigenToScalarImageFilterType) (good : Array) (sigma : R)
    (rest : Array) (rs : list OutputImageType) (e : ExceptionObject) :
  m_EigenToScalarImageFilter this = Some f ->
  m_SigmaArray this = good ++ sigma :: rest ->
  Forall2 (fun sigma response =>
             SingleScalePipeline f (GetInput this) sigma = OK response)
          good rs ->
  SingleScalePipeline f (GetInput this) sigma = Throw e ->
  exists this',
    GenerateData this = (Throw e, this')
    /\ Update this = Throw e
    /\ GetOutput this' = GetOutput this.
Proof.
  intros Hf Harr Hgood Hfail.
  assert (Hsize : (1 <= Array.GetSize (m_SigmaArray this))%nat)
    by (rewrite Harr; unfold Array.GetSize; rewrite length_app; simpl; lia).
  destruct (declaredPolicy f) as [e'|policy] eqn:Hpolicy.
  - assert (He : e = e').
    { unfold SingleScalePipeline in Hfail. rewrite Hpolicy in Hfail.
      unfold Throw in Hfail. cbn in Hfail. congruence. }
    subst e'. eexists. unfold Update.
    rewrite (GenerateData_unconverted this f e Hf Hsize Hpolicy).
    split; [reflexivity|]. split; reflexivity.
  - destruct (GenerateData_fails_at this f policy good rs sigma rest e
                Hf Harr Hpolicy Hgood Hfail)
      as (this' & Hrun & _ & _ & _ & Hout).
    exists this'. unfold Update. rewrite Hrun.
    split; [reflexivity|]. split; [reflexivity | exact Hout].
Qed.

(** X14: whatever happens in a run, [GenerateData] leaves the sigma
    array and the input of the aggregator as they were; it replaces the
    aggregator's output exactly when it returns without an exception, and
    then the output is an image. *)
Theorem GenerateData_grafts_only_on_success (this : Self) :
  let run := GenerateData this in
  m_SigmaArray (snd run) = m_SigmaArray this
  /\ GetInput (snd run) = GetInput this
  /\ (forall e, fst run = Throw e -> GetOutput (snd run) = GetOutput this)
  /\ (fst run = OK tt -> exists output, GetOutput (snd run) = Some output).
Proof.
  intros run. unfold run.
  destruct (m_EigenToScalarImageFilter this) as [f|] eqn:Hf.
  2: { rewrite (GenerateData_without_functor this Hf). cbn [fst snd].
       repeat split; auto. discriminate. }
  destruct (m_SigmaArray this) as [|sigma0 sigmas] eqn:Harr.
  { rewrite (GenerateData_without_sigma this f Hf Harr). cbn [fst snd].
    repeat split; auto. discriminate. }
  assert (Hsize : (1 <= Array.GetSize (m_SigmaArray this))%nat)
    by (rewrite Harr; simpl; lia).
  destruct (declaredPolicy f) as [e|policy] eqn:Hpolicy.
  { rewrite (GenerateData_unconverted this f e Hf Hsize Hpolicy).
    cbn [fst snd]. repeat split; auto. discriminate. }
  destruct (outcomes_or_first_failure
              (SingleScalePipeline f (GetInput this)) (sigma0 :: sigmas))
    as [(rs & Hall) | (good & rs & s & rest & e & Hsplit & Hgood & Hfail)].
  - inversion Hall as [|? response0 ? rs' Hfirst Hrest]; subst.
    destruct (GenerateData_all_succeed this f policy sigma0 sigmas
                response0 rs' Hf Harr Hpolicy Hfirst Hrest)
      as (this' & output & Hrun & Hs & _ & Hi & Hout & _).
    rewrite Hrun. cbn [fst snd]. rewrite Hs, Hi, Harr.
    repeat split; [discriminate | eauto].
  - rewrite Hsplit in Harr.
    destruct (GenerateData_fails_at this f policy good rs s rest e
                Hf Harr Hpolicy Hgood Hfail)
      as (this' & Hrun & Hs & _ & Hi & Hout).
    rewrite Hrun. cbn [fst snd]. rewrite Hs, Hi, Harr.
    repeat split; [now symmetry | auto | discriminate].
Qed.

(** X15: when the functor filter declares an eigenvalue order outside the
    enumeration, a run that has passed the two checks throws the
    bad-order exception of [ConvertType] with the offending value.  By then
    the Hessian filter has been set to normalise across scales and the
    eigen-analysis filter to the image dimension, but the order of the
    eigen-analysis filter is unchanged, no filter has been executed and no
    output has been grafted. *)
Theorem GenerateData_bad_order (this : Self)
    (f : EigenToScalarImageFilterType) (value : Z) :
  m_EigenToScalarImageFilter this = Some f ->
  (1 <= Array.GetSize (m_SigmaArray this))%nat ->
  GetEigenValueOrder f = EigenToScalarImageFilterType.OutOfRange value ->
  exists this',
    GenerateData this = (Throw (TryingToConvertBadOrder value), this')
    /\ executed this' = executed this
    /\ GetOutput this' = GetOutput this
    /\ GetNormalizeAcrossScale (m_HessianFilter this') = true
    /\ GetDimension (m_EigenAnalysisFilter this') = ImageDimension
    /\ GetOrderEigenValuesBy (m_EigenAnalysisFilter this')
       = GetOrderEigenValuesBy (m_EigenAnalysisFilter this).
Proof.
  intros Hf Hsize Horder.
  assert (Hpolicy : declaredPolicy f = Throw (TryingToConvertBadOrder value))
    by (unfold declaredPolicy; now rewrite Horder).
  eexists. rewrite (GenerateData_unconverted this f _ Hf Hsize Hpolicy).
  repeat split.
Qed.

End Runs.

Lemma SingleScalePipeline_signedResponse (sigma : R) :
  0 < sigma ->
  SingleScalePipeline signedResponse unitImage sigma
  = OK (responseOfScale sigma).
Proof.
  intros Hpos.
  unfold SingleScalePipeline, TensorField, Decompose, Measure, declaredPolicy.
  cbn [signedResponse GetEigenValueOrder andThen OK].
  rewrite HessianFilter_GenerateData_positive by exact Hpos. reflexivity.
Qed.

Lemma SingleScalePipeline_rejected (sigma : R) :
  sigma <= 0 ->
  SingleScalePipeline signedResponse unitImage sigma
  = Throw (SigmaMustBeGreaterThanZero sigma).
Proof.
  intros Hle.
  unfold SingleScalePipeline, TensorField, Decompose, Measure, declaredPolicy.
  cbn [signedResponse GetEigenValueOrder andThen OK].
  rewrite HessianFilter_GenerateData_non_positive by exact Hle. reflexivity.
Qed.

Lemma threeScales_responses :
  SingleScalePipeline signedResponse (GetInput threeScales) 1
  = OK (responseOfScale 1)
  /\ SingleScalePipeline signedResponse (GetInput threeScales) 3
     = OK (responseOfScale 3)
  /\ Forall2 (fun sigma response =>
                SingleScalePipeline signedResponse (GetInput threeScales)
                                    sigma = OK response)
             [5] [responseOfScale 5].
Proof.
  split; [apply SingleScalePipeline_signedResponse; lra|].
  split; [apply SingleScalePipeline_signedResponse; lra|].
  constructor; [apply SingleScalePipeline_signedResponse; lra | constructor].
Qed.

Lemma GenerateData_executes_schedule_in_order_witness :
  exists this',
    GenerateData threeScales = (OK tt, this')
    /\ executed this' = rev (scheduleTrace [1; 3; 5]) ++ [].
Proof.
  destruct threeScales_responses as (H1 & H3 & H5).
  destruct (GenerateData_all_succeed
              threeScales signedResponse
              EigenAnalysisFilterType.OrderByMagnitude
              1 [3; 5] (responseOfScale 1)
              [responseOfScale 3; responseOfScale 5]
              eq_refl eq_refl eq_refl H1 (Forall2_cons _ _ H3 H5))
    as (this' & output & Hrun & _).
  exists this'. split; [exact Hrun|].
  exact (GenerateData_executes_schedule_in_order threeScales this' Hrun).
Defined.

Lemma firstScaleDominates_responses :
  SingleScalePipeline signedResponse (GetInput firstScaleDominates) 5
  = OK (responseOfScale 5)
  /\ SingleScalePipeline signedResponse (GetInput firstScaleDominates) 1
     = OK (responseOfScale 1).
Proof.
  split; apply SingleScalePipeline_signedResponse; lra.
Qed.

Lemma GenerateData_two_scales_witness :
  exists output,
    Update firstScaleDominates = OK (Some output)
    /\ forall idx, GetPixel output idx = GetPixel (responseOfScale 1) idx.
Proof.
  destruct firstScaleDominates_responses as (H5 & H1).
  exact (GenerateData_two_scales
           firstScaleDominates signedResponse 5 1
           (responseOfScale 5) (responseOfScale 1) eq_refl eq_refl H5 H1).
Defined.

(** C2 fails in the first turn of the loop.  Over the schedule 5, 1 the
    single-scale pipeline answers 3 at the voxel for the first scale (the
    running best value [a]) and -1 for the second (the candidate [b]); the
    rule [abs(a) >= abs(b) ? a : b] gives 3, and the run returns -1: when
    the maximum-absolute-value filter runs, the running pointer and the
    candidate pointer address the functor filter's one output object,
    which holds the candidate. *)
Theorem GenerateData_first_response_lost :
  SingleScalePipeline signedResponse (GetInput firstScaleDominates) 5
  = OK (responseOfScale 5)
  /\ SingleScalePipeline signedResponse (GetInput firstScaleDominates) 1
     = OK (responseOfScale 1)
  /\ GetPixel (responseOfScale 5) (0, 0, 0)%Z = 3
  /\ GetPixel (responseOfScale 1) (0, 0, 0)%Z = -1
  /\ MaximumAbsoluteValue 3 (-1) = 3
  /\ exists output,
      Update firstScaleDominates = OK (Some output)
      /\ GetPixel output (0, 0, 0)%Z = -1.
Proof.
  destruct firstScaleDominates_responses as (H5 & H1).
  split; [exact H5|]. split; [exact H1|].
  split; [cbn; lra|]. split; [cbn; lra|]. split.
  - unfold MaximumAbsoluteValue.
    destruct (Rge_dec (Rabs 3) (Rabs (-1))) as [_|Hlt]; [reflexivity|].
    exfalso. apply Hlt. rewrite Rabs_right by lra.
    rewrite Rabs_left by lra. lra.
  - destruct (GenerateData_all_succeed
                firstScaleDominates signedResponse
                EigenAnalysisFilterType.OrderByMagnitude
                5 [1] (responseOfScale 5) [responseOfScale 1]
                eq_refl eq_refl eq_refl H5
                (Forall2_cons _ _ H1 (Forall2_nil _)))
      as (this' & output & Hrun & _ & _ & _ & Hout & Hpix & _).
    exists output. unfold Update. rewrite Hrun. unfold OK at 1.
    cbn beta iota. rewrite Hout. split; [reflexivity|].
    rewrite Hpix. cbn [map fold_left hd].
    rewrite MaximumAbsoluteValue_same. cbn. lra.
Qed.

Lemma GenerateData_first_failure_witness :
  exists this',
    GenerateData secondScaleRejected
    = (Throw (SigmaMustBeGreaterThanZero (-1)), this')
    /\ Update secondScaleRejected = Throw (SigmaMustBeGreaterThanZero (-1))
    /\ GetOutput this' = None.
Proof.
  apply (GenerateData_first_failure
           secondScaleRejected signedResponse [1] (-1) []
           [responseOfScale 1] (SigmaMustBeGreaterThanZero (-1))
           eq_refl eq_refl).
  - constructor; [apply SingleScalePipeline_signedResponse; lra|constructor].
  - apply SingleScalePipeline_rejected. lra.
Defined.

Lemma GenerateData_bad_order_witness :
  exists this',
    GenerateData badOrder = (Throw (TryingToConvertBadOrder 7), this')
    /\ executed this' = []
    /\ GetOutput this' = None
    /\ GetNormalizeAcrossScale (m_HessianFilter this') = true
    /\ GetDimension (m_EigenAnalysisFilter this') = ImageDimension
    /\ GetOrderEigenValuesBy (m_EigenAnalysisFilter this')
       = EigenAnalysisFilterType.OrderByValue.
Proof.
  apply (GenerateData_bad_order badOrder unorderedResponse 7%Z).
  - reflexivity.
  - simpl. lia.
  - reflexivity.
Defined.

End MultiScaleMore.

(** ** The test driver with two work units *)

Module DescoteauxTestMore.
Import Image Threads ThreadsFacts Descoteaux DescoteauxTest DescoteauxTestFacts.

Lemma test_driver_succeeds_witness :
  itkDescoteauxEigenToScalarParameterEstimationImageFilterTest TwoThreads 0%Z
  = EXIT_SUCCESS.
Proof.
  exact (test_driver_succeeds TwoThreads 0%Z TwoThreads_covers).
Defined.

End DescoteauxTestMore.
